(** * results.py: experiment-matrix runner and metrics aggregation

    A shallow embedding of [src/results.py]: the test runner that drives the
    external emulation pipeline for every (profile, algorithm) cell, locates
    and ingests the metrics artifact of each run, merges the per-run tables
    and derives the RTT summary.

    Modelling conventions.
    - Python exceptions are values of [exn]; code that can raise returns a
      [result].  Code that also touches the file system runs in the monad
      [M], a state monad over [World] whose state survives a raise.
    - A pandas table is a [DataFrame]: the ordered column labels and the
      rows, each row a finite map from label to [cell].  A label that a row
      does not bind reads as [NaN], as in a reindexed frame.  Labels of one
      frame are taken to be distinct, which is what [pd.read_csv] produces.
    - Numeric cells hold integers ([Int]) or rationals ([Num]): tables carry
      exact numbers, not binary64 values.  The worked example of the RTT
      summary is evaluated a second time in binary64 arithmetic.
    - Console output ([print]) and the plotting calls are not modelled. *)

From Stdlib Require Import ZArith QArith Qround String Ascii List.
From Stdlib Require Import Floats.SpecFloat.
From stdpp Require Import base strings list gmap pretty sorting.
Import ListNotations.

Local Close Scope Q_scope.
Local Open Scope string_scope.
Local Open Scope list_scope.

(** ** Exceptions and results *)

Inductive exn : Type :=
  | CalledProcessError (cmd : string) (returncode : Z)
  | FileNotFoundError (path : string)
  | EmptyDataError
  | ParserError
  | KeyError (key : string)
  | ValueError
  | TypeError.

Inductive result (A : Type) : Type :=
  | Ok (a : A)
  | Raise (e : exn).
Arguments Ok {A} a.
Arguments Raise {A} e.

Definition rbind {A B} (r : result A) (k : A -> result B) : result B :=
  match r with
  | Ok a => k a
  | Raise e => Raise e
  end.

Notation "x <~ r ;; k" := (rbind r (fun x => k))
  (at level 100, r at next level, right associativity).

Fixpoint rmapM {A B} (f : A -> result B) (l : list A) : result (list B) :=
  match l with
  | [] => Ok []
  | x :: l' => y <~ f x ;; ys <~ rmapM f l' ;; Ok (y :: ys)
  end.

(** ** Tables *)

Inductive cell : Type :=
  | Int (z : Z)
  | Num (q : Q)
  | Str (s : string)
  | NaN.

Record DataFrame : Type := mkDataFrame {
  columns : list string;
  rows : list (gmap string cell)
}.

(** [pd.DataFrame()] *)
Definition DataFrame_new : DataFrame := mkDataFrame [] [].

(** [len(df)] *)
Definition len (df : DataFrame) : nat := length (rows df).

(** [df.empty]: some axis has length zero. *)
Definition empty (df : DataFrame) : bool :=
  match columns df, rows df with
  | [], _ => true
  | _, [] => true
  | _, _ => false
  end.

(** The value a row shows under a label. *)
Definition get_cell (r : gmap string cell) (c : string) : cell :=
  default NaN (r !! c).

(** Labels after [df[c] = ...]: an existing label keeps its place, a new one
    goes last. *)
Definition add_label (c : string) (cols : list string) : list string :=
  if bool_decide (c ∈ cols) then cols else cols ++ [c].

(** [df[c] = v] for a scalar [v]. *)
Definition setitem_scalar (df : DataFrame) (c : string) (v : cell) : DataFrame :=
  mkDataFrame (add_label c (columns df)) ((fun r => <[c := v]> r) <$> rows df).

(** [df[c] = vs] for a list [vs]; pandas raises [ValueError] unless the list
    has one value per row. *)
Definition setitem_list (df : DataFrame) (c : string) (vs : list cell)
  : result DataFrame :=
  if bool_decide (length vs = len df)
  then Ok (mkDataFrame (add_label c (columns df))
                       (zip_with (fun r v => <[c := v]> r) (rows df) vs))
  else Raise ValueError.

(** First occurrences, in order: [Series.unique()] and the label union of
    [pd.concat]. *)
Fixpoint unique_by {A} (same : A -> A -> bool) (seen : list A) (l : list A)
  : list A :=
  match l with
  | [] => []
  | x :: l' =>
      if existsb (same x) seen then unique_by same seen l'
      else x :: unique_by same (seen ++ [x]) l'
  end.

Definition union_labels (ls : list (list string)) : list string :=
  unique_by String.eqb [] (concat ls).

(** [pd.concat(frames, ignore_index=True)]: rows in order, labels united in
    order of first appearance; raises on an empty list. *)
Definition pd_concat (frames : list DataFrame) : result DataFrame :=
  match frames with
  | [] => Raise ValueError
  | _ => Ok (mkDataFrame (union_labels (columns <$> frames))
                         (concat (rows <$> frames)))
  end.

(** ** Run records *)

Record NetworkProfile : Type := mkNetworkProfile {
  latency : Z;
  dl_trace : string;
  ul_trace : string
}.

Record TestResult : Type := mkTestResult {
  algorithm : string;
  profile : string;
  data : DataFrame
}.

(** [list(range(n))] as a column of integers. *)
Definition range_cells (n : nat) : list cell :=
  (fun i => Int (Z.of_nat i)) <$> seq 0 n.

(** One iteration of the loop of [_prepare_data]; [result.data.copy()] is the
    table itself, values being immutable here. *)
Definition prepare_frame (r : TestResult) : result DataFrame :=
  let df := data r in
  let df := setitem_scalar df "scheme" (Str (algorithm r)) in
  let df := setitem_scalar df "profile" (Str (profile r)) in
  setitem_list df "timestamp" (range_cells (len df)).

Definition _prepare_data (test_results : list TestResult) : result DataFrame :=
  frames <~ rmapM prepare_frame test_results ;;
  match frames with
  | [] => Ok DataFrame_new
  | _ => pd_concat frames
  end.

(** ** RTT summary *)

(** [df[c]]: the column as a list of cells. *)
Definition getitem (df : DataFrame) (c : string) : result (list cell) :=
  if bool_decide (c ∈ columns df)
  then Ok ((fun r => get_cell r c) <$> rows df)
  else Raise (KeyError c).

(** Element-wise [==] of a column against a value: numbers compare by value,
    [NaN] equals nothing. *)
Definition cell_eq (a b : cell) : bool :=
  match a, b with
  | Int x, Int y => Z.eqb x y
  | Int x, Num q => Qeq_bool (inject_Z x) q
  | Num q, Int y => Qeq_bool q (inject_Z y)
  | Num p, Num q => Qeq_bool p q
  | Str s, Str t => String.eqb s t
  | _, _ => false
  end.

(** Sameness used by [Series.unique()]: as [==], but one [NaN] stands for
    all of them. *)
Definition cell_same (a b : cell) : bool :=
  match a, b with
  | NaN, NaN => true
  | _, _ => cell_eq a b
  end.

Definition unique (col : list cell) : list cell := unique_by cell_same [] col.

(** [data[(data['scheme'] == algorithm) & (data['profile'] == profile)]] *)
Definition select (df : DataFrame) (alg prof : cell) : DataFrame :=
  mkDataFrame (columns df)
    (List.filter (fun r => cell_eq (get_cell r "scheme") alg
                           && cell_eq (get_cell r "profile") prof) (rows df)).

(** The numbers of a column with the missing values dropped ([skipna]);
    text makes the reduction raise. *)
Fixpoint numeric_values (col : list cell) : result (list Q) :=
  match col with
  | [] => Ok []
  | Int z :: col' => qs <~ numeric_values col' ;; Ok (inject_Z z :: qs)
  | Num q :: col' => qs <~ numeric_values col' ;; Ok (q :: qs)
  | NaN :: col' => numeric_values col'
  | Str _ :: _ => Raise TypeError
  end.

Definition Qsum (qs : list Q) : Q := fold_right Qplus (0 # 1)%Q qs.

Definition Qmean (qs : list Q) : Q := (Qsum qs / inject_Z (Z.of_nat (length qs)))%Q.

(** [Series.mean()] *)
Definition series_mean (col : list cell) : result cell :=
  qs <~ numeric_values col ;;
  match qs with
  | [] => Ok NaN
  | _ => Ok (Num (Qmean qs))
  end.

Fixpoint Qinsert (x : Q) (l : list Q) : list Q :=
  match l with
  | [] => [x]
  | y :: l' => if Qle_bool x y then x :: l else y :: Qinsert x l'
  end.

Definition Qsort (l : list Q) : list Q := fold_right Qinsert [] l.

(** The interpolation step of [numpy.percentile]. *)
Definition lerp (a b t : Q) : Q :=
  if Qle_bool (1 # 2) t then (b - (b - a) * (1 - t))%Q else (a + (b - a) * t)%Q.

(** [numpy.percentile] with the default linear method, on a sample without
    missing values: the sample is sorted, the virtual index is [(n-1) * q],
    and the value is interpolated between the order statistics around it;
    an index at or past the last one reads the last one. *)
Definition Qquantile (q : Q) (qs : list Q) : Q :=
  let sorted := Qsort qs in
  let n := length qs in
  let virtual_index := (inject_Z (Z.of_nat (n - 1)) * q)%Q in
  let previous := Z.to_nat (Qfloor virtual_index) in
  let gamma := (virtual_index - inject_Z (Qfloor virtual_index))%Q in
  if Qle_bool (inject_Z (Z.of_nat (n - 1))) virtual_index
  then nth (n - 1) sorted (0 # 1)%Q
  else lerp (nth previous sorted (0 # 1)%Q) (nth (S previous) sorted (0 # 1)%Q) gamma.

(** [Series.quantile(q)] *)
Definition series_quantile (q : Q) (col : list cell) : result cell :=
  qs <~ numeric_values col ;;
  match qs with
  | [] => Ok NaN
  | _ => Ok (Num (Qquantile q qs))
  end.


(** A row of the summary table: Algorithm, Profile, Avg RTT, 95th RTT. *)
Definition rtt_record : Type := (cell * cell * cell * cell)%type.

(** A Python [for] loop that appends to an accumulator and may raise. *)
Fixpoint rfor {A S} (l : list A) (body : A -> S -> result S) (s : S) : result S :=
  match l with
  | [] => Ok s
  | x :: l' => s' <~ body x s ;; rfor l' body s'
  end.

(** [_generate_rtt_summary], up to the table it writes to
    [rtt_summary.csv]; the bar chart drawn from that table is left out. *)
Definition _generate_rtt_summary (data : DataFrame) : result (list rtt_record) :=
  profiles <~ getitem data "profile" ;;
  rfor (unique profiles) (fun prof rtt_records =>
    schemes <~ getitem data "scheme" ;;
    rfor (unique schemes) (fun alg rtt_records =>
      let subset := select data alg prof in
      if negb (empty subset) then
        rtt1 <~ getitem subset "rtt" ;;
        avg <~ series_mean rtt1 ;;
        rtt2 <~ getitem subset "rtt" ;;
        p95 <~ series_quantile (95 # 100) rtt2 ;;
        Ok (rtt_records ++ [(alg, prof, avg, p95)])
      else Ok rtt_records) rtt_records) [].

(** ** File system and effects *)

Record file : Type := mkFile {
  mtime : Z;
  content : string
}.

(** Regular files by path, in directory order, and the clock that stamps
    new files. *)
Record FileSystem : Type := mkFileSystem {
  files : list (string * file);
  clock : Z
}.

Inductive event : Type :=
  | EvMkdir (path : string)
  | EvRun (cmd : string)
  | EvGlob (pattern : string)
  | EvCopy (src dst : string)
  | EvReadCsv (path : string).

(** The file system and the effects performed so far, oldest first. *)
Record World : Type := mkWorld {
  fs : FileSystem;
  trace : list event
}.

Definition M (A : Type) : Type := World -> World * result A.

Definition mret {A} (a : A) : M A := fun w => (w, Ok a).

Definition mbind {A B} (m : M A) (k : A -> M B) : M B :=
  fun w =>
    match m w with
    | (w', Ok a) => k a w'
    | (w', Raise e) => (w', Raise e)
    end.

Definition mraise {A} (e : exn) : M A := fun w => (w, Raise e).

Notation "x <- m ;;; k" := (mbind m (fun x => k))
  (at level 100, m at next level, right associativity).

Definition emit (ev : event) : M unit :=
  fun w => (mkWorld (fs w) (trace w ++ [ev]), Ok tt).

Definition get_fs : M FileSystem := fun w => (w, Ok (fs w)).

Definition put_fs (f : FileSystem) : M unit :=
  fun w => (mkWorld f (trace w), Ok tt).

(** [try: m  except <handled>: ...]: the exception caught, if any. *)
Definition try_except (handled : exn -> bool) (m : M unit) : M (option exn) :=
  fun w =>
    match m w with
    | (w', Ok _) => (w', Ok None)
    | (w', Raise e) => if handled e then (w', Ok (Some e)) else (w', Raise e)
    end.

Fixpoint mmapM {A B} (f : A -> M B) (l : list A) : M (list B) :=
  match l with
  | [] => mret []
  | x :: l' => y <- f x ;;; ys <- mmapM f l' ;;; mret (y :: ys)
  end.

(** A [for] loop over [l] that threads an accumulator. *)
Fixpoint mfor {A S} (l : list A) (body : A -> S -> M S) (s : S) : M S :=
  match l with
  | [] => mret s
  | x :: l' => s' <- body x s ;;; mfor l' body s'
  end.

(** *** Paths and patterns *)

(** The split of a path at its last slash, if it has one. *)
Fixpoint rsplit_slash (s : string) : option (string * string) :=
  match s with
  | EmptyString => None
  | String c s' =>
      match rsplit_slash s' with
      | Some (d, b) => Some (String c d, b)
      | None => if Ascii.eqb c "/" then Some (EmptyString, s') else None
      end
  end.

(** [os.path.split] on relative paths. *)
Definition os_path_split (p : string) : string * string :=
  match rsplit_slash p with
  | Some db => db
  | None => (EmptyString, p)
  end.

(** [fnmatch.fnmatchcase]: [*] matches any run of characters, [?] any one
    character, every other character itself.  Bracket classes are not
    modelled. *)
Fixpoint fnmatch (pat : string) : string -> bool :=
  match pat with
  | EmptyString => fun s => match s with EmptyString => true | _ => false end
  | String c pat' =>
      if Ascii.eqb c "*" then
        fix star (s : string) : bool :=
          fnmatch pat' s ||
          match s with
          | EmptyString => false
          | String _ s' => star s'
          end
      else
        fun s =>
          match s with
          | EmptyString => false
          | String d s' => (Ascii.eqb c "?" || Ascii.eqb c d) && fnmatch pat' s'
          end
  end.

Definition ishidden (name : string) : bool :=
  match name with
  | String c _ => Ascii.eqb c "."
  | EmptyString => false
  end.

(** [glob.glob(pathname)] for a pattern whose directory part is literal: the
    entries of that directory whose names match the last component, hidden
    ones only for a pattern that is hidden itself. *)
Definition glob_paths (f : FileSystem) (pathname : string) : list string :=
  let '(dirname, pattern) := os_path_split pathname in
  List.filter
    (fun p =>
       let '(d, name) := os_path_split p in
       String.eqb d dirname
       && (ishidden pattern || negb (ishidden name))
       && fnmatch pattern name)
    (fst <$> files f).

Definition glob (pathname : string) : M (list string) :=
  _ <- emit (EvGlob pathname) ;;;
  f <- get_fs ;;;
  mret (glob_paths f pathname).

Fixpoint fs_lookup (l : list (string * file)) (p : string) : option file :=
  match l with
  | [] => None
  | (p', x) :: l' => if String.eqb p' p then Some x else fs_lookup l' p
  end.

Fixpoint fs_write (l : list (string * file)) (p : string) (x : file)
  : list (string * file) :=
  match l with
  | [] => [(p, x)]
  | (p', y) :: l' =>
      if String.eqb p' p then (p, x) :: l' else (p', y) :: fs_write l' p x
  end.

(** [os.path.getmtime] *)
Definition os_path_getmtime (p : string) : M Z :=
  f <- get_fs ;;;
  match fs_lookup (files f) p with
  | Some x => mret (mtime x)
  | None => mraise (FileNotFoundError p)
  end.

(** [Path.exists()] *)
Definition path_exists (p : string) : M bool :=
  f <- get_fs ;;;
  mret (bool_decide (is_Some (fs_lookup (files f) p))).

(** [Path.mkdir(parents=True, exist_ok=True)]; directories are not part of
    the file-system state. *)
Definition mkdir (p : string) : M unit := emit (EvMkdir p).

(** [shutil.copy(src, dst)] *)
Definition shutil_copy (src dst : string) : M unit :=
  _ <- emit (EvCopy src dst) ;;;
  f <- get_fs ;;;
  match fs_lookup (files f) src with
  | Some x =>
      put_fs (mkFileSystem (fs_write (files f) dst (mkFile (clock f) (content x)))
                           (clock f))
  | None => mraise (FileNotFoundError src)
  end.

(** Descending stable insertion: [x] goes before the first entry whose key
    is not greater. *)
Fixpoint insert_desc {A} (x : Z * A) (l : list (Z * A)) : list (Z * A) :=
  match l with
  | [] => [x]
  | y :: l' => if Z.ltb (fst x) (fst y) then y :: insert_desc x l' else x :: l
  end.

(** [sorted(l, key=key, reverse=True)]: the keys are computed first, one
    call per element; equal keys keep their order. *)
Definition sorted_reverse {A} (key : A -> M Z) (l : list A) : M (list A) :=
  keyed <- mmapM (fun x => k <- key x ;;; mret (k, x)) l ;;;
  mret (snd <$> fold_right insert_desc [] keyed).

(** [Path / segment] and [str(Path)] on relative paths. *)
Definition path_join (a b : string) : string := a ++ "/" ++ b.

Definition dquote : string := String "034"%char EmptyString.

(** *** The runner *)

Module TestConfig.
Definition ALGORITHMS : list string := ["bbr"; "vivace"; "vegas"].

Definition PROFILES : list (string * NetworkProfile) :=
  [("low_latency",
    mkNetworkProfile 5 "mahimahi/traces/TMobile-LTE-driving.down"
                       "mahimahi/traces/TMobile-LTE-driving.up");
   ("high_latency",
    mkNetworkProfile 200 "mahimahi/traces/TMobile-LTE-short.down"
                         "mahimahi/traces/TMobile-LTE-short.up")].
End TestConfig.

Definition results_dir : string := "results".
Definition graphs_dir : string := "graphs".
Definition logs_dir : string := "logs".

Definition is_CalledProcessError (e : exn) : bool :=
  match e with
  | CalledProcessError _ _ => true
  | _ => false
  end.

(** The statement
    [metric_logs = sorted(glob.glob(f"{self.logs_dir}/metrics_{algorithm}_*.csv"),
                          key=os.path.getmtime, reverse=True)]
    of [_run_single_test]. *)
Definition metric_logs (algorithm : string) : M (list string) :=
  paths <- glob (logs_dir ++ "/metrics_" ++ algorithm ++ "_*.csv") ;;;
  sorted_reverse os_path_getmtime paths.

Section Runner.

(** The emulation harness and test driver behind [subprocess.run]: from the
    shell command and the file system to the exit status and the file
    system it leaves. *)
Variable driver : string -> FileSystem -> Z * FileSystem.

(** The parser behind [pd.read_csv], from file contents. *)
Variable read_csv : string -> result DataFrame.

(** [subprocess.run(cmd, shell=True, check=True)] *)
Definition subprocess_run (cmd : string) : M unit :=
  _ <- emit (EvRun cmd) ;;;
  f <- get_fs ;;;
  let '(returncode, f') := driver cmd f in
  _ <- put_fs f' ;;;
  if Z.eqb returncode 0 then mret tt
  else mraise (CalledProcessError cmd returncode).

(** [pd.read_csv(path)] *)
Definition pd_read_csv (p : string) : M DataFrame :=
  _ <- emit (EvReadCsv p) ;;;
  f <- get_fs ;;;
  match fs_lookup (files f) p with
  | Some x =>
      match read_csv (content x) with
      | Ok df => mret df
      | Raise e => mraise e
      end
  | None => mraise (FileNotFoundError p)
  end.

Definition test_command (algorithm : string) (result_path : string)
           (config : NetworkProfile) : string :=
  "mm-delay " ++ pretty (latency config) ++ " " ++
  "mm-link " ++ dl_trace config ++ " " ++ ul_trace config ++ " -- " ++
  "bash -c 'python3 tests/test_schemes.py --schemes " ++ dquote ++ algorithm
    ++ dquote ++ " > " ++ result_path ++ "/log.txt 2>&1'".

Definition _run_single_test (algorithm profile : string)
           (config : NetworkProfile) : M (option string) :=
  let result_path :=
    path_join (path_join results_dir ("profile_" ++ profile)) algorithm in
  _ <- mkdir result_path ;;;
  caught <- try_except is_CalledProcessError
              (subprocess_run (test_command algorithm result_path config)) ;;;
  match caught with
  | Some _ => mret None
  | None =>
      metric_logs <- metric_logs algorithm ;;;
      match metric_logs with
      | newest_log :: _ =>
          _ <- shutil_copy newest_log
                 (path_join result_path (algorithm ++ "_cc_log.csv")) ;;;
          mret (Some (path_join result_path (algorithm ++ "_cc_log.csv")))
      | [] => mret None
      end
  end.

(** The body of the inner loop of [run_all_tests]. *)
Definition run_cell (profile_id : string) (profile_config : NetworkProfile)
           (algorithm : string) (test_results : list TestResult)
  : M (list TestResult) :=
  result_file <- _run_single_test algorithm profile_id profile_config ;;;
  match result_file with
  | Some p =>
      found <- path_exists p ;;;
      if found then
        df <- pd_read_csv p ;;;
        mret (test_results ++ [mkTestResult algorithm profile_id df])
      else mret test_results
  | None => mret test_results
  end.

(** [run_all_tests] over a given configuration. *)
Definition run_matrix (profiles : list (string * NetworkProfile))
           (algorithms : list string) : M (list TestResult) :=
  mfor profiles (fun '(profile_id, profile_config) test_results =>
    mfor algorithms (run_cell profile_id profile_config) test_results) [].

Definition run_all_tests : M (list TestResult) :=
  run_matrix TestConfig.PROFILES TestConfig.ALGORITHMS.

End Runner.

(** ** Vocabulary of the statements *)

(** The frame one iteration of [_prepare_data] appends for a record. *)
Definition stamp (r : TestResult) : DataFrame :=
  mkDataFrame
    (add_label "timestamp" (add_label "profile" (add_label "scheme" (columns (data r)))))
    (zip_with (fun row v => <["timestamp" := v]> row)
       ((fun row => <["profile" := Str (profile r)]> row) <$>
        ((fun row => <["scheme" := Str (algorithm r)]> row) <$> rows (data r)))
       (range_cells (len (data r)))).

(** Rows contributed by a sequence of records. *)
Definition total_rows (rs : list TestResult) : nat :=
  sum_list_with (fun r => len (data r)) rs.

(** The rows of [d] that come from record [r], which follows the records
    [pre] in the input. *)
Definition rows_of_record (d : DataFrame) (pre : list TestResult) (r : TestResult)
  : list (gmap string cell) :=
  take (len (data r)) (drop (total_rows pre) (rows d)).

Definition identity_labels : list string := ["scheme"; "profile"; "timestamp"].

(** Text and numbers in cells. *)
Definition is_str (c : cell) : bool :=
  match c with Str _ => true | _ => false end.

Definition cell_number (c : cell) : option Q :=
  match c with
  | Int z => Some (inject_Z z)
  | Num q => Some q
  | _ => None
  end.

Definition is_number (c : cell) : bool :=
  match cell_number c with Some _ => true | None => false end.

(** A dataset as the data model has it: it has the profile, scheme and rtt
    columns, every row names its scheme and profile and carries a number as
    its rtt. *)
Definition normalized (d : DataFrame) : bool :=
  bool_decide ("profile" ∈ columns d)
  && bool_decide ("scheme" ∈ columns d)
  && bool_decide ("rtt" ∈ columns d)
  && forallb (fun row => is_str (get_cell row "scheme")
                         && is_str (get_cell row "profile")
                         && is_number (get_cell row "rtt")) (rows d).

(** The rows of the group of algorithm [a] under profile [p], and their rtt
    values. *)
Definition group_rows (d : DataFrame) (a p : string) : list (gmap string cell) :=
  rows (select d (Str a) (Str p)).

Definition group_rtts (d : DataFrame) (a p : string) : list Q :=
  omap (fun row => cell_number (get_cell row "rtt")) (group_rows d a p).


Definition cell_string (c : cell) : string :=
  match c with Str s => s | _ => EmptyString end.

(** The schemes and profiles named by the rows, row by row. *)
Definition row_schemes (d : DataFrame) : list string :=
  (fun row => cell_string (get_cell row "scheme")) <$> rows d.

Definition row_profiles (d : DataFrame) : list string :=
  (fun row => cell_string (get_cell row "profile")) <$> rows d.

(** What the loop body of [_generate_rtt_summary] appends for one pair. *)
Definition summary_cell (d : DataFrame) (p a : string) : list rtt_record :=
  match group_rows d a p with
  | [] => []
  | _ => [(Str a, Str p, Num (Qmean (group_rtts d a p)),
           Num (Qquantile (95 # 100) (group_rtts d a p)))]
  end.

(** *** Artifact location *)

Definition artifact_pattern (algorithm : string) : string :=
  logs_dir ++ "/metrics_" ++ algorithm ++ "_*.csv".

(** The artifact the driver writes for an algorithm, with its distinguishing
    suffix. *)
Definition artifact_path (algorithm suffix : string) : string :=
  logs_dir ++ "/metrics_" ++ algorithm ++ "_" ++ suffix ++ ".csv".

Definition mtime_at (f : FileSystem) (p : string) : Z :=
  match fs_lookup (files f) p with
  | Some x => mtime x
  | None => 0
  end.

(** The candidates for an algorithm, newest first. *)
Definition ranked (f : FileSystem) (algorithm : string) : list string :=
  snd <$> fold_right insert_desc []
            ((fun p => (mtime_at f p, p)) <$> glob_paths f (artifact_pattern algorithm)).

(** The artifact chosen for an algorithm, if any. *)
Definition locate (f : FileSystem) (algorithm : string) : option string :=
  head (ranked f algorithm).

Fixpoint has_char (c : ascii) (s : string) : bool :=
  match s with
  | EmptyString => false
  | String d s' => Ascii.eqb d c || has_char c s'
  end.

(** A pattern without wildcards. *)
Definition literal (s : string) : bool :=
  negb (has_char "*" s) && negb (has_char "?" s).

(** An algorithm id that is one plain token: no separator of the artifact
    name, no wildcard or bracket, no path separator. *)
Definition plain (s : string) : bool :=
  negb (has_char "_" s) && negb (has_char "*" s) && negb (has_char "?" s)
  && negb (has_char "[" s) && negb (has_char "/" s).

Fixpoint ends_with (suffix s : string) : bool :=
  String.eqb s suffix ||
  match s with
  | EmptyString => false
  | String _ s' => ends_with suffix s'
  end.

(** Events of artifact retrieval: the scan, the copy and the read. *)
Definition is_artifact_event (ev : event) : bool :=
  match ev with
  | EvGlob _ | EvCopy _ _ | EvReadCsv _ => true
  | _ => false
  end.

(** *** The matrix *)

Definition result_path (profile algorithm : string) : string :=
  path_join (path_join results_dir ("profile_" ++ profile)) algorithm.

(** Where the code puts the per-run copy of the artifact. *)
Definition copy_path (profile algorithm : string) : string :=
  path_join (result_path profile algorithm) (algorithm ++ "_cc_log.csv").


(** The cells of the matrix in iteration order: profiles outermost. *)
Definition cells (profiles : list (string * NetworkProfile)) (algorithms : list string)
  : list (string * NetworkProfile * string) :=
  flat_map (fun pc => (fun a => (pc.1, pc.2, a)) <$> algorithms) profiles.

Definition cell_tag (c : string * NetworkProfile * string) : string * string :=
  (c.1.1, c.2).

Definition record_tag (r : TestResult) : string * string :=
  (profile r, algorithm r).

Section Collect.
Variable driver : string -> FileSystem -> Z * FileSystem.
Variable read_csv : string -> result DataFrame.

(** What one cell contributes: its record, or nothing if it fails. *)
Definition cell_records (c : string * NetworkProfile * string)
  : M (list TestResult) :=
  run_cell driver read_csv c.1.1 c.1.2 c.2 [].

(** The records of the cells, cell after cell. *)
Fixpoint collect (cs : list (string * NetworkProfile * string))
  : M (list TestResult) :=
  match cs with
  | [] => mret []
  | c :: cs' =>
      l <- cell_records c ;;;
      ls <- collect cs' ;;;
      mret (l ++ ls)
  end.
End Collect.

(** ** Sample data *)

Definition sample_row (thr : Q) (rtt : Z) : gmap string cell :=
  {[ "throughput" := Num thr; "rtt" := Int rtt; "scheme" := Str "stale" ]}.

Definition sample_frame : DataFrame :=
  mkDataFrame ["throughput"; "rtt"; "scheme"]
    [sample_row (3 # 2) 10; sample_row (5 # 2) 20; sample_row (7 # 2) 30;
     sample_row (9 # 2) 40; sample_row (11 # 2) 50].

Definition sample_record : TestResult :=
  mkTestResult "bbr" "low_latency" sample_frame.

(** The dataset [_prepare_data] builds from the one sample record. *)
Definition sample_dataset : DataFrame :=
  match _prepare_data [sample_record] with
  | Ok d => d
  | Raise _ => DataFrame_new
  end.

(** *** The worked example in binary64

    The steps [Series.mean] and [Series.quantile(0.95)] take on the sample
    10, 20, 30, 40, 50, in IEEE binary64 arithmetic: pandas passes the
    percentage [q * 100] to [numpy.percentile], which divides it by 100,
    multiplies by [n - 1 = 4] for the virtual index, takes the order
    statistics 40 and 50 around it and interpolates with the branch of the
    interpolation for a weight of at least one half. *)

Definition b64_of_Z (z : Z) : spec_float := binary_normalize 53 1024 z 0 false.
Definition b64_add : spec_float -> spec_float -> spec_float := SFadd 53 1024.
Definition b64_sub : spec_float -> spec_float -> spec_float := SFsub 53 1024.
Definition b64_mul : spec_float -> spec_float -> spec_float := SFmul 53 1024.
Definition b64_div : spec_float -> spec_float -> spec_float := SFdiv 53 1024.

Definition b64_sample : list spec_float := b64_of_Z <$> [10; 20; 30; 40; 50]%Z.

Definition b64_mean : spec_float :=
  b64_div (fold_left b64_add b64_sample (b64_of_Z 0)) (b64_of_Z 5).

(** The literal [0.95]. *)
Definition b64_q : spec_float := b64_div (b64_of_Z 95) (b64_of_Z 100).

Definition b64_virtual_index : spec_float :=
  b64_mul (b64_of_Z 4) (b64_div (b64_mul b64_q (b64_of_Z 100)) (b64_of_Z 100)).

Definition b64_gamma : spec_float := b64_sub b64_virtual_index (b64_of_Z 3).

Definition b64_percentile : spec_float :=
  b64_sub (b64_of_Z 50)
          (b64_mul (b64_sub (b64_of_Z 50) (b64_of_Z 40))
                   (b64_sub (b64_of_Z 1) b64_gamma)).

(** *** Sample worlds *)

Definition nl : string := String "010"%char EmptyString.

Definition csv_small : string :=
  "throughput,rtt" ++ nl ++ "1.5,10" ++ nl ++ "2.5,20" ++ nl.

Definition small_frame : DataFrame :=
  mkDataFrame ["throughput"; "rtt"]
    [ {[ "throughput" := Num (3 # 2); "rtt" := Int 10 ]};
      {[ "throughput" := Num (5 # 2); "rtt" := Int 20 ]} ].

(** A reader that knows one table; like [pd.read_csv] it raises
    [EmptyDataError] on an empty file. *)
Definition sample_read_csv (text : string) : result DataFrame :=
  if String.eqb text EmptyString then Raise EmptyDataError
  else if String.eqb text csv_small then Ok small_frame
  else Raise ParserError.

(** A driver that exits with status 0 and writes nothing. *)
Definition driver_ok (cmd : string) (f : FileSystem) : Z * FileSystem := (0%Z, f).

Definition low_latency : NetworkProfile :=
  mkNetworkProfile 5 "mahimahi/traces/TMobile-LTE-driving.down"
                     "mahimahi/traces/TMobile-LTE-driving.up".

(** A driver whose run of vivace under low_latency exits with status 1. *)
Definition driver_vivace_fails (cmd : string) (f : FileSystem) : Z * FileSystem :=
  if String.eqb cmd (test_command "vivace" (result_path "low_latency" "vivace")
                                  low_latency)
  then (1%Z, f) else (0%Z, f).

Definition world_of (l : list (string * file)) : World :=
  mkWorld (mkFileSystem l 1000) [].

(** Artifacts of all three algorithms, two of them for bbr. *)
Definition world_full : World :=
  world_of [("logs/metrics_bbr_1.csv", mkFile 100 csv_small);
            ("logs/metrics_vegas_1.csv", mkFile 300 csv_small);
            ("logs/metrics_bbr_2.csv", mkFile 200 csv_small);
            ("logs/metrics_vivace_1.csv", mkFile 400 csv_small)].

(** As [world_full], but the newest bbr artifact is an empty file. *)
Definition world_empty_artifact : World :=
  world_of [("logs/metrics_bbr_1.csv", mkFile 100 csv_small);
            ("logs/metrics_vegas_1.csv", mkFile 300 csv_small);
            ("logs/metrics_bbr_2.csv", mkFile 200 EmptyString);
            ("logs/metrics_vivace_1.csv", mkFile 400 csv_small)].



(** Two bbr artifacts written at the same time, then an older one. *)
Definition world_tie : World :=
  world_of [("logs/metrics_bbr_a.csv", mkFile 200 csv_small);
            ("logs/metrics_bbr_b.csv", mkFile 200 csv_small);
            ("logs/metrics_bbr_c.csv", mkFile 100 csv_small)].

(** A driver whose every run exits with status 1. *)
Definition driver_fails (cmd : string) (f : FileSystem) : Z * FileSystem := (1%Z, f).


(** ** Further vocabulary *)

(** Events of an external invocation. *)
Definition is_run_event (ev : event) : bool :=
  match ev with EvRun _ => true | _ => false end.

(** The status and the file system the driver leaves for a cell. *)
Definition cell_status (driver : string -> FileSystem -> Z * FileSystem)
    (pid : string) (cfg : NetworkProfile) (A : string) (w : World) : Z :=
  (driver (test_command A (result_path pid A) cfg) (fs w)).1.

Definition cell_fs (driver : string -> FileSystem -> Z * FileSystem)
    (pid : string) (cfg : NetworkProfile) (A : string) (w : World) : FileSystem :=
  (driver (test_command A (result_path pid A) cfg) (fs w)).2.

(** A table whose rtt column is there and holds a number in every row. *)
Definition has_rtt (t : DataFrame) : bool :=
  bool_decide ("rtt" ∈ columns t)
  && forallb (fun row => is_number (get_cell row "rtt")) (rows t).

(** The (algorithm, profile) pair a summary row stands for. *)
Definition record_key (rec : rtt_record) : cell * cell := (rec.1.1.1, rec.1.1.2).

(** The (algorithm, profile) pairs the loops of [_generate_rtt_summary]
    visit, in order. *)
Definition group_pairs (d : DataFrame) : list (string * string) :=
  flat_map (fun p => (fun a => (a, p)) <$> unique_by String.eqb [] (row_schemes d))
           (unique_by String.eqb [] (row_profiles d)).

(** The summary key of a run record. *)
Definition record_cells (r : TestResult) : cell * cell :=
  (Str (algorithm r), Str (profile r)).

(** Whether the group of a pair has a row. *)
Definition group_present (d : DataFrame) (ap : string * string) : bool :=
  match group_rows d ap.1 ap.2 with
  | [] => false
  | _ => true
  end.

Definition pair_cells (ap : string * string) : cell * cell := (Str ap.1, Str ap.2).

(** Every row names its scheme and its profile. *)
Definition tagged (d : DataFrame) : bool :=
  forallb (fun row => is_str (get_cell row "scheme")
                      && is_str (get_cell row "profile")) (rows d).

(** A tagged dataset without the measurement columns. *)
Definition tags_only_dataset : DataFrame :=
  mkDataFrame ["scheme"; "profile"; "timestamp"]
    [ {[ "scheme" := Str "bbr"; "profile" := Str "low_latency"; "timestamp" := Int 0 ]} ].


(** ** Plots

    The calls the plot functions make on matplotlib, in order.  A call is
    recorded with the data it is given; calls that only style the figure
    (axis labels, legend, grid, layout) are left out, and so is what
    matplotlib does with the data. *)

Inductive plt_call : Type :=
  | PltFigure
  | PltPlot (x y : list cell) (label color marker : string)
  | PltPoint (x y : cell) (label color : string)
  | PltTitle (text : string)
  | PltSavefig (path : string)
  | PltClose.

(** Exceptions of the plot functions: those of [exn], and the
    [AttributeError] of a missing attribute. *)
Inductive plot_exn : Type :=
  | Exn (e : exn)
  | AttributeError (attribute : string).

(** A computation that issues plot calls and may raise. *)
Definition Plt (A : Type) : Type :=
  list plt_call -> list plt_call * (plot_exn + A).

Definition pret {A} (a : A) : Plt A := fun calls => (calls, inr a).

Definition pbind {A B} (m : Plt A) (k : A -> Plt B) : Plt B :=
  fun calls =>
    match m calls with
    | (calls', inr a) => k a calls'
    | (calls', inl e) => (calls', inl e)
    end.

Notation "x <~~ m ;;; k" := (pbind m (fun x => k))
  (at level 100, m at next level, right associativity).

Definition pcall (c : plt_call) : Plt unit := fun calls => (calls ++ [c], inr tt).

Definition praise {A} (e : plot_exn) : Plt A := fun calls => (calls, inl e).

Definition plift {A} (r : result A) : Plt A :=
  match r with
  | Ok a => pret a
  | Raise e => praise (Exn e)
  end.

(** A [for] loop whose body returns nothing. *)
Fixpoint pfor {A} (l : list A) (body : A -> Plt unit) : Plt unit :=
  match l with
  | [] => pret tt
  | x :: l' => _ <~~ body x ;;; pfor l' body
  end.

Definition upper_ascii (c : ascii) : ascii :=
  let n := nat_of_ascii c in
  if (97 <=? n)%nat && (n <=? 122)%nat then ascii_of_nat (n - 32) else c.

(** [str.upper()] on ASCII text. *)
Fixpoint str_upper (s : string) : string :=
  match s with
  | EmptyString => EmptyString
  | String c s' => String (upper_ascii c) (str_upper s')
  end.

(** The assignment to [self.color_map] in [generate_plots]. *)
Definition generate_plots_color_map : list (string * string) :=
  [("bbr", "#8A2BE2"); ("vivace", "#DC143C"); ("vegas", "#32CD32")].

Fixpoint dict_get (dict : list (string * string)) (key : string) : option string :=
  match dict with
  | [] => None
  | (k, v) :: dict' => if String.eqb k key then Some v else dict_get dict' key
  end.

Section Plots.

(** The text of a floating-point number in an f-string. *)
Variable repr_float : Q -> string.

(** [self.color_map]: unset until [generate_plots] assigns it. *)
Variable color_map : option (list (string * string)).

(** [f"{value}"] *)
Definition format_cell (c : cell) : string :=
  match c with
  | Str s => s
  | Int z => pretty z
  | Num q => repr_float q
  | NaN => "nan"
  end.

(** [algorithm.upper()]: only text has the method. *)
Definition cell_upper (c : cell) : Plt string :=
  match c with
  | Str s => pret (str_upper s)
  | _ => praise (AttributeError "upper")
  end.

(** [self.color_map[algorithm]] *)
Definition color_of (algorithm : cell) : Plt string :=
  match color_map with
  | None => praise (AttributeError "color_map")
  | Some dict =>
      match algorithm with
      | Str s =>
          match dict_get dict s with
          | Some color => pret color
          | None => praise (Exn (KeyError s))
          end
      | _ => praise (Exn (KeyError (format_cell algorithm)))
      end
  end.

(** The loop shared by [_plot_throughput] and [_plot_loss_rate]: one figure
    per profile with one line per scheme, saved under [stem] and the
    profile. *)
Definition plot_over_time (data : DataFrame) (measure marker title stem : string)
  : Plt unit :=
  profiles <~~ plift (getitem data "profile") ;;;
  pfor (unique profiles) (fun profile =>
    _ <~~ pcall PltFigure ;;;
    schemes <~~ plift (getitem data "scheme") ;;;
    _ <~~ pfor (unique schemes) (fun algorithm =>
           let subset := select data algorithm profile in
           x <~~ plift (getitem subset "timestamp") ;;;
           y <~~ plift (getitem subset measure) ;;;
           label <~~ cell_upper algorithm ;;;
           color <~~ color_of algorithm ;;;
           pcall (PltPlot x y label color marker)) ;;;
    _ <~~ pcall (PltTitle (title ++ format_cell profile)) ;;;
    _ <~~ pcall (PltSavefig (path_join graphs_dir
                              (stem ++ format_cell profile ++ ".png"))) ;;;
    pcall PltClose).

Definition _plot_throughput (data : DataFrame) : Plt unit :=
  plot_over_time data "throughput" "o" "Throughput Over Time - Profile: "
                 "throughput_profile_".


Definition _plot_rtt_vs_throughput (data : DataFrame) : Plt unit :=
  _ <~~ pcall PltFigure ;;;
  profiles <~~ plift (getitem data "profile") ;;;
  _ <~~ pfor (unique profiles) (fun profile =>
         schemes <~~ plift (getitem data "scheme") ;;;
         pfor (unique schemes) (fun algorithm =>
           let subset := select data algorithm profile in
           if negb (empty subset) then
             rtt <~~ plift (getitem subset "rtt") ;;;
             avg_rtt <~~ plift (series_mean rtt) ;;;
             throughput <~~ plift (getitem subset "throughput") ;;;
             avg_throughput <~~ plift (series_mean throughput) ;;;
             upper <~~ cell_upper algorithm ;;;
             color <~~ color_of algorithm ;;;
             pcall (PltPoint avg_rtt avg_throughput
                             (upper ++ "-" ++ format_cell profile) color)
           else pret tt)) ;;;
  _ <~~ pcall (PltTitle "Avg Throughput vs Avg RTT") ;;;
  _ <~~ pcall (PltSavefig (path_join graphs_dir "rtt_vs_throughput.png")) ;;;
  pcall PltClose.

End Plots.

(** The files saved and the lines drawn by a sequence of calls. *)
Definition saved_files (calls : list plt_call) : list string :=
  omap (fun c => match c with PltSavefig p => Some p | _ => None end) calls.


Definition drawn_points (calls : list plt_call) : list (cell * cell) :=
  omap (fun c => match c with PltPoint x y _ _ => Some (x, y) | _ => None end) calls.


(** The colour of a scheme, black if it has none. *)
Definition colour (dict : list (string * string)) (a : string) : string :=
  default "black" (dict_get dict a).

(** A float printer for the samples. *)
Definition sample_repr (q : Q) : string := "float".

(** The mean of a column, [NaN] where [Series.mean] would raise. *)
Definition mean_cell (col : list cell) : cell :=
  match series_mean col with
  | Ok c => c
  | Raise _ => NaN
  end.

(** No cell of the column holds text. *)
Definition no_text (d : DataFrame) (c : string) : bool :=
  forallb (fun row => negb (is_str (get_cell row c))) (rows d).

(** The point [_plot_rtt_vs_throughput] draws for one pair. *)
Definition point_cell (dict : list (string * string)) (d : DataFrame)
    (p a : string) : list plt_call :=
  match group_rows d a p with
  | [] => []
  | _ => [PltPoint (Num (Qmean (group_rtts d a p)))
                   (mean_cell ((fun row => get_cell row "throughput")
                               <$> group_rows d a p))
                   (str_upper a ++ "-" ++ p) (colour dict a)]
  end.

(** * Properties *)

(** ** Normalisation *)

Lemma rmapM_total {A B} (f : A -> result B) (g : A -> B) (l : list A) :
  (forall x, f x = Ok (g x)) -> rmapM f l = Ok (g <$> l).
Proof.
  intros Hf. induction l as [|x l IH]; simpl; [done|].
  by rewrite Hf, IH.
Qed.

Lemma length_range_cells n : length (range_cells n) = n.
Proof. unfold range_cells. by rewrite length_fmap, length_seq. Qed.

Lemma prepare_frame_stamp r : prepare_frame r = Ok (stamp r).
Proof.
  unfold prepare_frame, setitem_list, stamp.
  assert (Hlen : forall df c v, len (setitem_scalar df c v) = len df).
  { intros. unfold len, setitem_scalar. simpl. by rewrite length_fmap. }
  rewrite !Hlen, bool_decide_eq_true_2 by apply length_range_cells.
  done.
Qed.

Lemma len_stamp r : length (rows (stamp r)) = len (data r).
Proof.
  unfold stamp. simpl.
  rewrite length_zip_with_l_eq; rewrite !length_fmap; [done|].
  by rewrite length_range_cells.
Qed.

Lemma lookup_stamp r j row :
  rows (data r) !! j = Some row ->
  rows (stamp r) !! j =
    Some (<["timestamp" := Int (Z.of_nat j)]>
            (<["profile" := Str (profile r)]> (<["scheme" := Str (algorithm r)]> row))).
Proof.
  intros Hj. unfold stamp, range_cells. simpl.
  rewrite lookup_zip_with, !list_lookup_fmap, Hj. simpl.
  rewrite lookup_seq_lt by (apply lookup_lt_Some in Hj; done).
  done.
Qed.

Lemma prepare_data_total rs :
  exists d, _prepare_data rs = Ok d /\ rows d = concat (rows ∘ stamp <$> rs)
            /\ (rs <> [] -> columns d = union_labels (columns ∘ stamp <$> rs)).
Proof.
  unfold _prepare_data.
  rewrite (rmapM_total _ stamp) by apply prepare_frame_stamp.
  destruct rs as [|r rs]; simpl.
  - exists DataFrame_new. done.
  - eexists. split; [done|]. simpl. rewrite <- !list_fmap_compose. done.
Qed.

Lemma length_stamped_rows rs :
  length (concat (rows ∘ stamp <$> rs)) = total_rows rs.
Proof.
  induction rs as [|r rs IH]; [done|].
  change (concat (rows ∘ stamp <$> r :: rs))
    with (rows (stamp r) ++ concat (rows ∘ stamp <$> rs)).
  rewrite length_app, IH, len_stamp. done.
Qed.

Lemma rows_of_record_stamp d pre r post :
  rows d = concat (rows ∘ stamp <$> (pre ++ r :: post)) ->
  rows_of_record d pre r = rows (stamp r).
Proof.
  intros Hrows. unfold rows_of_record. rewrite Hrows.
  rewrite fmap_app, concat_app.
  change (concat (rows ∘ stamp <$> r :: post))
    with (rows (stamp r) ++ concat (rows ∘ stamp <$> post)).
  rewrite drop_app_length' by (by rewrite length_stamped_rows).
  by rewrite take_app_length' by (by rewrite len_stamp).
Qed.

(** C8: on the empty sequence [_prepare_data] returns the empty frame
    [pd.DataFrame()] and does not raise, although [pd.concat] would raise on
    the empty list of frames. *)
Theorem prepare_data_empty :
  _prepare_data [] = Ok DataFrame_new
  /\ empty DataFrame_new = true
  /\ len DataFrame_new = 0
  /\ pd_concat [] = Raise ValueError.
Proof. repeat split. Qed.

(** C2: for every sequence of records that contains a record [r],
    [_prepare_data] returns a frame whose row count is the sum of the
    records' row counts, and the timestamp column read on the rows that come
    from [r] is 0, 1, ..., n-1 for the n rows of [r]. *)
Theorem prepare_data_rows_timestamps (pre post : list TestResult) (r : TestResult) :
  exists d,
    _prepare_data (pre ++ r :: post) = Ok d
    /\ len d = total_rows (pre ++ r :: post)
    /\ length (rows_of_record d pre r) = len (data r)
    /\ (fun row => get_cell row "timestamp") <$> rows_of_record d pre r
       = (fun j => Int (Z.of_nat j)) <$> seq 0 (len (data r)).
Proof.
  destruct (prepare_data_total (pre ++ r :: post)) as (d & Hd & Hrows & _).
  exists d. split; [done|]. split.
  { unfold len. by rewrite Hrows, length_stamped_rows. }
  rewrite (rows_of_record_stamp d pre r post Hrows).
  split; [apply len_stamp|].
  apply list_eq. intros j. rewrite !list_lookup_fmap.
  destruct (rows (data r) !! j) as [row|] eqn:Hj.
  - rewrite (lookup_stamp _ _ _ Hj). simpl.
    rewrite lookup_seq_lt by (apply lookup_lt_Some in Hj; done). simpl.
    unfold get_cell. by rewrite lookup_insert_eq.
  - apply lookup_ge_None in Hj.
    rewrite lookup_seq_ge by done.
    rewrite (proj2 (lookup_ge_None _ _)); [done|].
    by rewrite len_stamp.
Qed.

(** *** Labels *)

Section UniqueBy.
Context {A : Type} (eqb : A -> A -> bool).
Hypothesis eqb_eq : forall x y, eqb x y = true <-> x = y.

Lemma existsb_eqb_elem_of x (l : list A) : existsb (eqb x) l = true <-> x ∈ l.
Proof.
  rewrite existsb_exists. split.
  - intros (y & Hy & Heq). apply eqb_eq in Heq as ->. by apply list_elem_of_In.
  - intros Hx. exists x. split; [by apply list_elem_of_In | by apply eqb_eq].
Qed.

Lemma elem_of_unique_by (seen l : list A) x :
  x ∈ unique_by eqb seen l <-> x ∈ l /\ x ∉ seen.
Proof.
  revert seen. induction l as [|y l IH]; intros seen; simpl.
  - split; [by intros ?%elem_of_nil | by intros [?%elem_of_nil _]].
  - destruct (existsb (eqb y) seen) eqn:Hy.
    + apply existsb_eqb_elem_of in Hy. rewrite IH, elem_of_cons.
      split; [intros [? ?]; split; [by right|done]|].
      intros [[->|?] ?]; done.
    + assert (y ∉ seen) as Hy'.
      { intros Hin%existsb_eqb_elem_of. congruence. }
      rewrite !elem_of_cons, IH, elem_of_app, list_elem_of_singleton.
      split.
      * intros [->|[? Hns]]; [split; [by left|done]|].
        split; [by right|]. intros ?. apply Hns. by left.
      * intros [[->|?] Hs]; [by left|].
        destruct (eqb x y) eqn:Hxy.
        -- apply eqb_eq in Hxy. by left.
        -- right. split; [done|]. intros [?| ->]; [done|].
           assert (eqb y y = true) by (by apply eqb_eq). congruence.
Qed.

Lemma NoDup_unique_by (seen l : list A) : NoDup (unique_by eqb seen l).
Proof.
  revert seen. induction l as [|y l IH]; intros seen; simpl.
  - constructor.
  - destruct (existsb (eqb y) seen); [apply IH|].
    constructor; [|apply IH].
    rewrite elem_of_unique_by, elem_of_app, list_elem_of_singleton.
    intros [_ Hn]. apply Hn. by right.
Qed.
End UniqueBy.

Lemma elem_of_concat {A} (ls : list (list A)) (x : A) :
  x ∈ concat ls <-> exists l, l ∈ ls /\ x ∈ l.
Proof.
  induction ls as [|l ls IH]; simpl.
  - split; [by intros ?%elem_of_nil | by intros (? & ?%elem_of_nil & _)].
  - rewrite elem_of_app, IH. split.
    + intros [?|(l' & ? & ?)]; [exists l | exists l']; split; try done.
      * by left.
      * by right.
    + intros (l' & [->|?]%elem_of_cons & ?); [by left | right; eauto].
Qed.

Lemma NoDup_union_labels ls : NoDup (union_labels ls).
Proof. apply NoDup_unique_by, String.eqb_eq. Qed.

Lemma elem_of_union_labels ls c :
  c ∈ union_labels ls <-> exists l, l ∈ ls /\ c ∈ l.
Proof.
  unfold union_labels. rewrite (elem_of_unique_by _ String.eqb_eq).
  rewrite elem_of_concat. split.
  - intros [(l & ? & ?) _]. eauto.
  - intros (l & ? & ?). split; [eauto | apply not_elem_of_nil].
Qed.

Lemma elem_of_add_label c c' cols :
  c' ∈ add_label c cols <-> c' = c \/ c' ∈ cols.
Proof.
  unfold add_label. case_bool_decide.
  - split; [by right|]. intros [->|?]; done.
  - rewrite elem_of_app, list_elem_of_singleton. tauto.
Qed.

Lemma NoDup_add_label c cols : NoDup cols -> NoDup (add_label c cols).
Proof.
  intros Hnd. unfold add_label. case_bool_decide; [done|].
  apply NoDup_app. split; [done|]. split.
  - intros x Hx ->%list_elem_of_singleton. done.
  - apply NoDup_singleton.
Qed.

Lemma NoDup_columns_stamp r : NoDup (columns (data r)) -> NoDup (columns (stamp r)).
Proof. intros H. unfold stamp. simpl. by do 3 apply NoDup_add_label. Qed.

Lemma elem_of_columns_stamp r c :
  c ∈ columns (stamp r) <-> c ∈ identity_labels \/ c ∈ columns (data r).
Proof.
  unfold stamp, identity_labels. simpl. rewrite !elem_of_add_label.
  rewrite !elem_of_cons, elem_of_nil. tauto.
Qed.

(** C10: in the rows that come from a record, [_prepare_data] leaves every
    column other than scheme, profile and timestamp as the record's table has
    it, and sets those three to the record's algorithm, its profile and the
    row's ordinal, whatever the table held under these labels; a label that
    the table already has is not added a second time. *)
Theorem prepare_data_frame_effect (pre post : list TestResult) (r : TestResult)
    (j : nat) (row : gmap string cell)
    (Hrow : rows (data r) !! j = Some row)
    (Hlabels : NoDup (columns (data r))) :
  exists d f row',
    _prepare_data (pre ++ r :: post) = Ok d
    /\ prepare_frame r = Ok f
    /\ rows_of_record d pre r !! j = Some row'
    /\ rows d !! (total_rows pre + j) = Some row'
    /\ (forall c, c ∉ identity_labels -> row' !! c = row !! c)
    /\ row' !! "scheme" = Some (Str (algorithm r))
    /\ row' !! "profile" = Some (Str (profile r))
    /\ row' !! "timestamp" = Some (Int (Z.of_nat j))
    /\ NoDup (columns f)
    /\ (forall c, c ∈ columns f <-> c ∈ identity_labels \/ c ∈ columns (data r))
    /\ NoDup (columns d)
    /\ (forall c, c ∈ columns f -> c ∈ columns d).
Proof.
  destruct (prepare_data_total (pre ++ r :: post)) as (d & Hd & Hrows & Hcols).
  pose proof (rows_of_record_stamp d pre r post Hrows) as Hrec.
  pose proof (lookup_stamp r j row Hrow) as Hst.
  eexists d, (stamp r), _. split; [done|]. split; [apply prepare_frame_stamp|].
  split; [by rewrite Hrec|]. split.
  { rewrite <- Hst, <- Hrec. unfold rows_of_record.
    rewrite lookup_take_lt by (apply lookup_lt_Some in Hrow; done).
    by rewrite lookup_drop. }
  split.
  { intros c Hc. unfold identity_labels in Hc.
    rewrite !not_elem_of_cons in Hc. destruct Hc as (? & ? & ? & _).
    by rewrite !lookup_insert_ne. }
  split; [by rewrite lookup_insert_ne, lookup_insert_ne, lookup_insert_eq|].
  split; [by rewrite lookup_insert_ne, lookup_insert_eq|].
  split; [by rewrite lookup_insert_eq|].
  split; [by apply NoDup_columns_stamp|].
  split; [apply elem_of_columns_stamp|].
  rewrite Hcols by (by destruct pre).
  split; [apply NoDup_union_labels|].
  intros c Hc. apply elem_of_union_labels. exists (columns (stamp r)).
  split; [|done]. apply list_elem_of_fmap. exists r. split; [done|].
  apply elem_of_app. right. apply elem_of_cons. by left.
Qed.

(** ** RTT summary *)

Lemma rfor_append {A B} (f : A -> list B) (body : A -> list B -> result (list B))
    (l : list A) (acc : list B) :
  (forall x s, x ∈ l -> body x s = Ok (s ++ f x)) ->
  rfor l body acc = Ok (acc ++ flat_map f l).
Proof.
  revert acc. induction l as [|x l IH]; intros acc Hbody; simpl.
  - by rewrite app_nil_r.
  - rewrite Hbody by (by left). simpl.
    rewrite IH by (intros; apply Hbody; by right).
    by rewrite <- app_assoc.
Qed.

Lemma unique_by_Str (seen l : list string) :
  unique_by cell_same (Str <$> seen) (Str <$> l)
  = Str <$> unique_by String.eqb seen l.
Proof.
  revert seen. induction l as [|x l IH]; intros seen; [done|].
  rewrite fmap_cons. cbn [unique_by].
  assert (existsb (cell_same (Str x)) (Str <$> seen) = existsb (String.eqb x) seen)
    as ->.
  { induction seen as [|y seen IHs]; [done|].
    rewrite fmap_cons. cbn [existsb cell_same cell_eq]. by rewrite IHs. }
  destruct (existsb (String.eqb x) seen); [apply IH|].
  rewrite fmap_cons. f_equal. rewrite <- IH. by rewrite fmap_app.
Qed.

Lemma unique_Str (l : list string) :
  unique (Str <$> l) = Str <$> unique_by String.eqb [] l.
Proof. exact (unique_by_Str [] l). Qed.

Lemma numeric_values_numbers (col : list cell) :
  forallb is_number col = true ->
  numeric_values col = Ok (omap cell_number col).
Proof.
  induction col as [|c col IH]; simpl; [done|].
  intros [Hc Hcol]%andb_prop. specialize (IH Hcol).
  destruct c; try discriminate Hc; simpl; by rewrite IH.
Qed.



(** *** The percentile *)






Lemma Qinsert_sorted (x : Q) (l : list Q) :
  Sorted Qle l -> Sorted Qle (Qinsert x l).
Proof.
  induction 1 as [|y l Hs IH Hhd]; simpl.
  - by repeat constructor.
  - destruct (Qle_bool x y) eqn:Hxy.
    + apply Qle_bool_iff in Hxy. by repeat constructor.
    + assert (y <= x)%Q as Hyx.
      { apply Qlt_le_weak, Qnot_le_lt. intros Hle%Qle_bool_iff. congruence. }
      constructor; [done|].
      destruct Hhd as [|z l Hyz]; simpl; [by constructor|].
      destruct (Qle_bool x z); by constructor.
Qed.

(** The sample the percentile is read from is the sorted one. *)
Lemma Qsort_sorted (l : list Q) : Sorted Qle (Qsort l).
Proof.
  induction l as [|x l IH]; simpl; [constructor|]. by apply Qinsert_sorted.
Qed.

(** In binary64 the worked example gives exactly 30.0 and 48.0: the virtual
    index lies in [3, 4), its weight is at least one half, and the rounded
    interpolation is the double 48. *)
Lemma b64_worked_example :
  b64_mean = b64_of_Z 30
  /\ SFleb (b64_of_Z 3) b64_virtual_index = true
  /\ SFltb b64_virtual_index (b64_of_Z 4) = true
  /\ SFleb (b64_div (b64_of_Z 1) (b64_of_Z 2)) b64_gamma = true
  /\ b64_percentile = b64_of_Z 48.
Proof. repeat split; by vm_compute. Qed.

(** *** The summary table *)

Lemma forallb_Forall_true {A} (f : A -> bool) (l : list A) :
  forallb f l = true <-> Forall (fun x => f x = true) l.
Proof.
  induction l as [|x l IH]; simpl.
  - split; [constructor | done].
  - rewrite andb_true_iff, Forall_cons, IH. done.
Qed.

Lemma cell_eq_Str c s : cell_eq c (Str s) = true <-> c = Str s.
Proof.
  destruct c; simpl; try (split; [discriminate|]; intros [=]).
  rewrite String.eqb_eq. split; [by intros -> | by intros [=]].
Qed.

Lemma is_str_cell_string c : is_str c = true -> c = Str (cell_string c).
Proof. by destruct c. Qed.

Lemma getitem_present d c :
  c ∈ columns d -> getitem d c = Ok ((fun row => get_cell row c) <$> rows d).
Proof. intros H. unfold getitem. by rewrite bool_decide_eq_true_2. Qed.

Lemma flat_map_fmap {A B C} (f : A -> B) (g : B -> list C) (l : list A) :
  flat_map g (f <$> l) = flat_map (fun x => g (f x)) l.
Proof.
  induction l as [|x l IH]; [done|].
  rewrite fmap_cons. cbn [flat_map]. by rewrite IH.
Qed.

Section Summary.
Variable d : DataFrame.
Hypothesis Hnorm : normalized d = true.

Lemma normalized_columns :
  "profile" ∈ columns d /\ "scheme" ∈ columns d /\ "rtt" ∈ columns d.
Proof.
  unfold normalized in Hnorm. rewrite !andb_true_iff in Hnorm.
  destruct Hnorm as [[[?%bool_decide_eq_true ?%bool_decide_eq_true]
                        ?%bool_decide_eq_true] _]. done.
Qed.

Lemma normalized_rows :
  Forall (fun row => is_str (get_cell row "scheme") = true
                     /\ is_str (get_cell row "profile") = true
                     /\ is_number (get_cell row "rtt") = true) (rows d).
Proof.
  unfold normalized in Hnorm. rewrite !andb_true_iff in Hnorm.
  destruct Hnorm as [_ Hrows]. apply forallb_Forall_true in Hrows.
  eapply Forall_impl; [exact Hrows|]. intros row H. simpl in H.
  rewrite !andb_true_iff in H. tauto.
Qed.

Lemma profile_column :
  (fun row => get_cell row "profile") <$> rows d = Str <$> row_profiles d.
Proof.
  unfold row_profiles. rewrite <- list_fmap_compose.
  apply Forall_fmap_ext_1. eapply Forall_impl; [apply normalized_rows|].
  intros row (_ & H & _). simpl. by apply is_str_cell_string.
Qed.

Lemma scheme_column :
  (fun row => get_cell row "scheme") <$> rows d = Str <$> row_schemes d.
Proof.
  unfold row_schemes. rewrite <- list_fmap_compose.
  apply Forall_fmap_ext_1. eapply Forall_impl; [apply normalized_rows|].
  intros row (H & _ & _). simpl. by apply is_str_cell_string.
Qed.

Lemma group_rows_normalized a p :
  Forall (fun row => get_cell row "scheme" = Str a
                     /\ get_cell row "profile" = Str p
                     /\ is_number (get_cell row "rtt") = true
                     /\ row ∈ rows d) (group_rows d a p).
Proof.
  unfold group_rows, select. simpl. apply Forall_forall. intros row Hin.
  apply list_elem_of_In, filter_In in Hin as [Hin Hsel].
  apply andb_true_iff in Hsel as [Ha Hp].
  apply cell_eq_Str in Ha, Hp. apply list_elem_of_In in Hin.
  pose proof normalized_rows as H. rewrite Forall_forall in H.
  destruct (H row Hin) as (_ & _ & ?). done.
Qed.

Lemma group_rtts_numeric a p :
  numeric_values ((fun row => get_cell row "rtt") <$> group_rows d a p)
  = Ok (group_rtts d a p)
  /\ length (group_rtts d a p) = length (group_rows d a p).
Proof.
  unfold group_rtts. pose proof (group_rows_normalized a p) as H.
  induction H as [|row l (_ & _ & Hnum & _) _ [IH1 IH2]]; [done|].
  rewrite fmap_cons. unfold is_number in Hnum.
  cbn [omap list_omap].
  destruct (get_cell row "rtt") eqn:Hc; try discriminate Hnum;
    cbn [numeric_values cell_number]; rewrite IH1; cbn [rbind length];
    by rewrite IH2.
Qed.

Lemma summary_body a p (acc : list rtt_record) :
  (let subset := select d (Str a) (Str p) in
   if negb (empty subset) then
     rtt1 <~ getitem subset "rtt" ;;
     avg <~ series_mean rtt1 ;;
     rtt2 <~ getitem subset "rtt" ;;
     p95 <~ series_quantile (95 # 100) rtt2 ;;
     Ok (acc ++ [(Str a, Str p, avg, p95)])
   else Ok acc)
  = Ok (acc ++ summary_cell d p a).
Proof.
  destruct normalized_columns as (_ & _ & Hrtt).
  destruct (group_rtts_numeric a p) as [Hnum Hlen].
  unfold summary_cell. cbv zeta.
  change (rows (select d (Str a) (Str p))) with (group_rows d a p) in *.
  assert (empty (select d (Str a) (Str p))
          = match group_rows d a p with [] => true | _ => false end) as ->.
  { unfold empty. change (columns (select d (Str a) (Str p))) with (columns d).
    change (rows (select d (Str a) (Str p))) with (group_rows d a p).
    destruct (columns d); [by apply elem_of_nil in Hrtt | done]. }
  assert (getitem (select d (Str a) (Str p)) "rtt"
          = Ok ((fun row => get_cell row "rtt") <$> group_rows d a p)) as ->
    by (by apply getitem_present).
  remember ((fun row => get_cell row "rtt") <$> group_rows d a p) as col.
  clear Heqcol.
  destruct (group_rows d a p) as [|row g]; cbn [negb].
  { by rewrite app_nil_r. }
  cbn [rbind]. unfold series_mean, series_quantile. rewrite Hnum.
  cbn [rbind].
  destruct (group_rtts d a p); [discriminate Hlen | done].
Qed.

Lemma generate_rtt_summary_table :
  _generate_rtt_summary d
  = Ok (flat_map (fun p => flat_map (summary_cell d p)
                             (unique_by String.eqb [] (row_schemes d)))
                 (unique_by String.eqb [] (row_profiles d))).
Proof.
  destruct normalized_columns as (Hp & Hs & _).
  unfold _generate_rtt_summary.
  rewrite (getitem_present _ _ Hp). cbn [rbind].
  rewrite profile_column, unique_Str.
  rewrite (rfor_append
             (fun prof => flat_map (summary_cell d (cell_string prof))
                            (unique_by String.eqb [] (row_schemes d)))).
  { rewrite flat_map_fmap. done. }
  intros prof acc (p & -> & _)%list_elem_of_fmap.
  rewrite (getitem_present _ _ Hs). cbn [rbind].
  rewrite scheme_column, unique_Str.
  rewrite (rfor_append (fun alg => summary_cell d p (cell_string alg))).
  { by rewrite flat_map_fmap. }
  intros alg acc' (a & -> & _)%list_elem_of_fmap.
  apply summary_body.
Qed.
End Summary.




(** ** The runner *)

Ltac monad_unfold :=
  unfold mbind, mret, mraise, emit, get_fs, put_fs, try_except in *;
  cbn [fs trace fst snd] in *.

Lemma fs_lookup_elem_of (l : list (string * file)) (p : string) :
  p ∈ fst <$> l -> is_Some (fs_lookup l p).
Proof.
  induction l as [|[p' x] l IH]; simpl.
  - by intros ?%elem_of_nil.
  - intros [->|Hin]%elem_of_cons.
    + rewrite String.eqb_refl. by eexists.
    + destruct (String.eqb p' p); [by eexists | by apply IH].
Qed.

Lemma fs_lookup_write_eq (l : list (string * file)) (p : string) (x : file) :
  fs_lookup (fs_write l p x) p = Some x.
Proof.
  induction l as [|[p' y] l IH]; simpl.
  - by rewrite String.eqb_refl.
  - destruct (String.eqb p' p) eqn:Heq; simpl.
    + by rewrite String.eqb_refl.
    + by rewrite Heq.
Qed.

Lemma glob_paths_files (f : FileSystem) (pat p : string) :
  p ∈ glob_paths f pat -> p ∈ fst <$> files f.
Proof.
  unfold glob_paths. destruct (os_path_split pat) as [dirname pattern].
  intros Hin%list_elem_of_In%filter_In. by apply list_elem_of_In, Hin.
Qed.

Lemma elem_of_insert_desc {A} (x y : Z * A) (l : list (Z * A)) :
  y ∈ insert_desc x l <-> y = x \/ y ∈ l.
Proof.
  induction l as [|z l IH]; simpl.
  - rewrite list_elem_of_singleton, elem_of_nil. tauto.
  - destruct (Z.ltb (fst x) (fst z)).
    + rewrite !elem_of_cons, IH. tauto.
    + rewrite !elem_of_cons. tauto.
Qed.

Lemma elem_of_sort_desc {A} (y : Z * A) (l : list (Z * A)) :
  y ∈ fold_right insert_desc [] l <-> y ∈ l.
Proof.
  induction l as [|z l IH]; simpl; [done|].
  by rewrite elem_of_insert_desc, IH, elem_of_cons.
Qed.

Lemma elem_of_ranked (f : FileSystem) (A p : string) :
  p ∈ ranked f A <-> p ∈ glob_paths f (artifact_pattern A).
Proof.
  unfold ranked. rewrite list_elem_of_fmap. split.
  - intros ([t q] & -> & Hin).
    apply (proj1 (elem_of_sort_desc _ _)) in Hin.
    apply list_elem_of_fmap in Hin as (q' & [= _ ->] & Hin). done.
  - intros Hin. exists (mtime_at f p, p). split; [done|].
    apply elem_of_sort_desc, list_elem_of_fmap. eauto.
Qed.

Lemma ranked_nil (f : FileSystem) (A : string) :
  ranked f A = [] <-> glob_paths f (artifact_pattern A) = [].
Proof.
  split; intros H.
  - destruct (glob_paths f (artifact_pattern A)) as [|p l] eqn:Hg; [done|].
    assert (p ∈ ranked f A) as Hin by (apply elem_of_ranked; rewrite Hg; by left).
    rewrite H in Hin. by apply elem_of_nil in Hin.
  - unfold ranked. by rewrite H.
Qed.

Lemma mmapM_getmtime (f : FileSystem) (tr : list event) (paths : list string) :
  Forall (fun p => is_Some (fs_lookup (files f) p)) paths ->
  mmapM (fun x => k <- os_path_getmtime x ;;; mret (k, x)) paths (mkWorld f tr)
  = (mkWorld f tr, Ok ((fun p => (mtime_at f p, p)) <$> paths)).
Proof.
  induction 1 as [|p paths [x Hx] _ IH]; [done|].
  cbn [mmapM]. unfold mbind at 1. unfold mbind at 1.
  unfold os_path_getmtime at 1. monad_unfold. rewrite Hx.
  unfold mbind in IH. rewrite IH. rewrite fmap_cons. unfold mtime_at.
  by rewrite Hx.
Qed.

(** The location step never raises: it yields the candidates, newest first. *)
Lemma metric_logs_ranked (A : string) (w : World) :
  metric_logs A w
  = (mkWorld (fs w) (trace w ++ [EvGlob (artifact_pattern A)]),
     Ok (ranked (fs w) A)).
Proof.
  unfold metric_logs, glob, sorted_reverse.
  unfold mbind at 1. unfold mbind at 1. unfold emit at 1.
  unfold mbind at 1. unfold get_fs at 1. cbn [fs trace].
  unfold mret at 1. unfold mbind at 1.
  rewrite mmapM_getmtime; [done|].
  apply Forall_forall. intros p Hp. cbn [fs].
  by apply fs_lookup_elem_of, glob_paths_files with (artifact_pattern A).
Qed.

Section RunnerProperties.
Variable driver : string -> FileSystem -> Z * FileSystem.
Variable read_csv : string -> result DataFrame.

Lemma subprocess_run_status (cmd : string) (w : World) :
  subprocess_run driver cmd w
  = (mkWorld (driver cmd (fs w)).2 (trace w ++ [EvRun cmd]),
     if Z.eqb (driver cmd (fs w)).1 0 then Ok tt
     else Raise (CalledProcessError cmd (driver cmd (fs w)).1)).
Proof.
  unfold subprocess_run. monad_unfold.
  destruct (driver cmd (fs w)) as [rc f']. cbn [fst snd].
  by destruct (Z.eqb rc 0).
Qed.

(** A run whose external invocation exits with a non-zero status. *)
Lemma run_single_test_failure (A P : string) (cfg : NetworkProfile) (w : World) :
  (driver (test_command A (result_path P A) cfg) (fs w)).1 <> 0%Z ->
  _run_single_test driver A P cfg w
  = (mkWorld (driver (test_command A (result_path P A) cfg) (fs w)).2
             (trace w ++ [EvMkdir (result_path P A);
                          EvRun (test_command A (result_path P A) cfg)]),
     Ok None).
Proof.
  intros Hrc. unfold _run_single_test. fold (result_path P A).
  unfold mbind at 1. unfold mkdir, emit at 1.
  unfold mbind at 1. unfold try_except. rewrite subprocess_run_status.
  cbn [fs trace]. apply Z.eqb_neq in Hrc. rewrite Hrc. cbn.
  by rewrite <- app_assoc.
Qed.

(** A run whose invocation succeeds: the outcome is decided by [locate]
    on the file system the driver leaves. *)
Lemma run_single_test_success (A P : string) (cfg : NetworkProfile) (w : World) :
  (driver (test_command A (result_path P A) cfg) (fs w)).1 = 0%Z ->
  let f' := (driver (test_command A (result_path P A) cfg) (fs w)).2 in
  let tr := trace w ++ [EvMkdir (result_path P A);
                        EvRun (test_command A (result_path P A) cfg);
                        EvGlob (artifact_pattern A)] in
  match locate f' A with
  | None =>
      _run_single_test driver A P cfg w = (mkWorld f' tr, Ok None)
  | Some newest =>
      exists x,
        fs_lookup (files f') newest = Some x
        /\ _run_single_test driver A P cfg w
           = (mkWorld (mkFileSystem
                         (fs_write (files f') (copy_path P A)
                                   (mkFile (clock f') (content x)))
                         (clock f'))
                      (tr ++ [EvCopy newest (copy_path P A)]),
              Ok (Some (copy_path P A)))
  end.
Proof.
  intros Hrc f' tr. unfold locate.
  assert (Hrun : _run_single_test driver A P cfg w
                 = match ranked f' A with
                   | newest :: _ =>
                       (_ <- shutil_copy newest (copy_path P A) ;;;
                        mret (Some (copy_path P A))) (mkWorld f' tr)
                   | [] => (mkWorld f' tr, Ok None)
                   end).
  { unfold _run_single_test. fold (result_path P A). fold (copy_path P A).
    unfold mbind at 1. unfold mkdir, emit at 1.
    unfold mbind at 1. unfold try_except. rewrite subprocess_run_status.
    cbn [fs trace]. rewrite Hrc. cbn [Z.eqb].
    unfold mbind at 1. rewrite metric_logs_ranked. cbn [fs trace].
    fold f'. rewrite <- !app_assoc. cbn [app]. fold tr.
    by destruct (ranked f' A). }
  rewrite Hrun. clear Hrun.
  destruct (ranked f' A) as [|newest rest] eqn:Hranked; cbn [head]; [done|].
  assert (newest ∈ fst <$> files f') as Hin.
  { apply glob_paths_files with (artifact_pattern A), elem_of_ranked.
    rewrite Hranked. by left. }
  apply fs_lookup_elem_of in Hin as [x Hx]. exists x. split; [done|].
  unfold shutil_copy. monad_unfold. by rewrite Hx.
Qed.

Lemma run_cell_records (pid : string) (cfg : NetworkProfile) (A : string)
    (acc : list TestResult) (w : World) :
  run_cell driver read_csv pid cfg A acc w
  = match cell_records driver read_csv (pid, cfg, A) w with
    | (w', Ok l) => (w', Ok (acc ++ l))
    | (w', Raise e) => (w', Raise e)
    end.
Proof.
  unfold cell_records, run_cell. cbn [fst snd]. unfold mbind, mret.
  destruct (_run_single_test driver A pid cfg w) as [w1 [[p|]|e]]; [| |done].
  - destruct (path_exists p w1) as [w2 [[|]|e]]; [| |done].
    + destruct (pd_read_csv read_csv p w2) as [w3 [df|e]]; done.
    + by rewrite app_nil_r.
  - by rewrite app_nil_r.
Qed.

(** What a cell contributes: nothing when [_run_single_test] reports no
    file, its record when the copied file is read, and otherwise an
    exception of [read_csv] that is not caught. *)
Lemma cell_records_cases (c : string * NetworkProfile * string) (w : World) :
  (exists w1, _run_single_test driver c.2 c.1.1 c.1.2 w = (w1, Ok None)
              /\ cell_records driver read_csv c w = (w1, Ok []))
  \/ (exists w1 p x,
        _run_single_test driver c.2 c.1.1 c.1.2 w = (w1, Ok (Some p))
        /\ fs_lookup (files (fs w1)) p = Some x
        /\ ((exists df, read_csv (content x) = Ok df
                        /\ cell_records driver read_csv c w
                           = (mkWorld (fs w1) (trace w1 ++ [EvReadCsv p]),
                              Ok [mkTestResult c.2 c.1.1 df]))
            \/ (exists e, read_csv (content x) = Raise e
                          /\ cell_records driver read_csv c w
                             = (mkWorld (fs w1) (trace w1 ++ [EvReadCsv p]),
                                Raise e)))).
Proof.
  destruct c as [[pid cfg] A]. cbn [fst snd].
  unfold cell_records, run_cell. cbn [fst snd]. unfold mbind, mret.
  destruct (Z.eq_dec (driver (test_command A (result_path pid A) cfg) (fs w)).1 0%Z)
    as [Hrc|Hrc].
  - pose proof (run_single_test_success A pid cfg w Hrc) as Hrun.
    cbv zeta in Hrun.
    destruct (locate _ A) as [newest|].
    + destruct Hrun as (x & Hx & ->). right.
      eexists _, _, _. split; [done|]. cbn [fs files].
      split; [apply fs_lookup_write_eq|]. cbn [content].
      unfold path_exists, pd_read_csv. monad_unfold. cbn [files].
      rewrite fs_lookup_write_eq.
      rewrite bool_decide_eq_true_2 by (by eexists).
      cbn [fs files trace]. rewrite fs_lookup_write_eq. cbn [content].
      destruct (read_csv (content x)) as [df|e]; [left|right]; eauto.
    + rewrite Hrun. left. eauto.
  - rewrite (run_single_test_failure A pid cfg w Hrc). left. eauto.
Qed.

Lemma mfor_collect (pid_cells : list (string * NetworkProfile * string))
    (acc : list TestResult) (w : World) :
  mfor pid_cells (fun c acc => run_cell driver read_csv c.1.1 c.1.2 c.2 acc) acc w
  = match collect driver read_csv pid_cells w with
    | (w', Ok ls) => (w', Ok (acc ++ ls))
    | (w', Raise e) => (w', Raise e)
    end.
Proof.
  revert acc w. induction pid_cells as [|[[pid cfg] A] cs IH]; intros acc w.
  - cbn. by rewrite app_nil_r.
  - cbn [mfor collect fst snd]. unfold mbind at 1 2.
    rewrite run_cell_records.
    destruct (cell_records driver read_csv (pid, cfg, A) w) as [w1 [l|e]]; [|done].
    rewrite IH. unfold mbind, mret.
    destruct (collect driver read_csv cs w1) as [w2 [ls|e]]; [|done].
    by rewrite app_assoc.
Qed.

Lemma mfor_app {A S} (l1 l2 : list A) (body : A -> S -> M S) (s : S) (w : World) :
  mfor (l1 ++ l2) body s w = (s' <- mfor l1 body s ;;; mfor l2 body s') w.
Proof.
  revert s w. induction l1 as [|x l1 IH]; intros s w; [done|].
  cbn [app mfor]. unfold mbind at 1 2 3.
  destruct (body x s w) as [w1 [s1|e]]; [|done].
  rewrite IH. done.
Qed.

Lemma mfor_fmap {A B S} (f : A -> B) (l : list A) (body : B -> S -> M S)
    (s : S) (w : World) :
  mfor (f <$> l) body s w = mfor l (fun x => body (f x)) s w.
Proof.
  revert s w. induction l as [|x l IH]; intros s w; [done|].
  rewrite fmap_cons. cbn [mfor]. unfold mbind.
  destruct (body (f x) s w) as [w1 [s1|e]]; [|done]. apply IH.
Qed.

(** The nested loops visit the cells in the order of [cells]. *)
Lemma run_matrix_cells (profiles : list (string * NetworkProfile))
    (algorithms : list string) (acc : list TestResult) (w : World) :
  mfor profiles (fun '(profile_id, profile_config) test_results =>
    mfor algorithms (run_cell driver read_csv profile_id profile_config)
         test_results) acc w
  = mfor (cells profiles algorithms)
         (fun c acc => run_cell driver read_csv c.1.1 c.1.2 c.2 acc) acc w.
Proof.
  revert acc w. induction profiles as [|[pid cfg] ps IH]; intros acc w; [done|].
  unfold cells. cbn [flat_map mfor fst snd]. fold (cells ps algorithms).
  rewrite mfor_app. unfold mbind. rewrite mfor_fmap. cbn [fst snd].
  destruct (mfor algorithms _ acc w) as [w1 [s1|e]]; [|done]. apply IH.
Qed.

Lemma collect_tags (cs : list (string * NetworkProfile * string)) (w : World) :
  match collect driver read_csv cs w with
  | (_, Ok rs) => sublist (record_tag <$> rs) (cell_tag <$> cs)
  | (_, Raise e) => exists text, read_csv text = Raise e
  end.
Proof.
  revert w. induction cs as [|c cs IH]; intros w.
  - cbn. constructor.
  - cbn [collect]. unfold mbind at 1.
    destruct (cell_records_cases c w)
      as [(w1 & _ & ->)|(w1 & p & x & _ & _ & [(df & _ & ->)|(e & He & ->)])].
    + unfold mbind, mret. specialize (IH w1).
      destruct (collect driver read_csv cs w1) as [w2 [ls|e]]; [|done].
      rewrite fmap_cons. by apply sublist_cons.
    + unfold mbind, mret.
      specialize (IH (mkWorld (fs w1) (trace w1 ++ [EvReadCsv p]))).
      destruct (collect driver read_csv cs _) as [w2 [ls|e]]; [|done].
      cbn [app]. rewrite !fmap_cons. by apply sublist_skip.
    + eauto.
Qed.

(** C7: [run_all_tests] visits the cells profile by profile in the order
    of the configuration and, within a profile, algorithm by algorithm in
    that order; what it returns is, cell after cell in that order, the
    record of each cell that yields one and nothing for a cell that fails,
    so the records follow the order of the cells.  A cell yields nothing
    when [_run_single_test] reports no file and its record when the copy is
    read; the run fails to return only on an exception of [read_csv]. *)
Theorem run_matrix_order (profiles : list (string * NetworkProfile))
    (algorithms : list string) (w : World) :
  run_matrix driver read_csv profiles algorithms w
  = collect driver read_csv (cells profiles algorithms) w
  /\ match run_matrix driver read_csv profiles algorithms w with
     | (_, Ok rs) =>
         sublist (record_tag <$> rs) (cell_tag <$> cells profiles algorithms)
     | (_, Raise e) => exists text, read_csv text = Raise e
     end
  /\ (forall c w0,
        (exists w1, _run_single_test driver c.2 c.1.1 c.1.2 w0 = (w1, Ok None)
                    /\ cell_records driver read_csv c w0 = (w1, Ok []))
        \/ (exists w1 p x,
              _run_single_test driver c.2 c.1.1 c.1.2 w0 = (w1, Ok (Some p))
              /\ fs_lookup (files (fs w1)) p = Some x
              /\ ((exists df, read_csv (content x) = Ok df
                              /\ cell_records driver read_csv c w0
                                 = (mkWorld (fs w1) (trace w1 ++ [EvReadCsv p]),
                                    Ok [mkTestResult c.2 c.1.1 df]))
                  \/ (exists e, read_csv (content x) = Raise e
                                /\ cell_records driver read_csv c w0
                                   = (mkWorld (fs w1) (trace w1 ++ [EvReadCsv p]),
                                      Raise e)))))
  /\ run_all_tests driver read_csv
     = run_matrix driver read_csv TestConfig.PROFILES TestConfig.ALGORITHMS
  /\ cell_tag <$> cells TestConfig.PROFILES TestConfig.ALGORITHMS
     = [("low_latency", "bbr"); ("low_latency", "vivace");
        ("low_latency", "vegas"); ("high_latency", "bbr");
        ("high_latency", "vivace"); ("high_latency", "vegas")].
Proof.
  assert (run_matrix driver read_csv profiles algorithms w
          = collect driver read_csv (cells profiles algorithms) w) as Heq.
  { unfold run_matrix. rewrite run_matrix_cells, mfor_collect.
    by destruct (collect _ _ _ w) as [w' [ls|e]]. }
  split; [done|]. split; [rewrite Heq; apply collect_tags|].
  split; [apply cell_records_cases | done].
Qed.
End RunnerProperties.

(** ** Strings, patterns and paths *)

Section Strings.
Local Open Scope string_scope.

Lemma sapp_cons (c : ascii) (s t : string) : String c s ++ t = String c (s ++ t).
Proof. reflexivity. Qed.

Lemma sapp_nil_l (s : string) : EmptyString ++ s = s.
Proof. reflexivity. Qed.

Lemma sapp_nil_r (s : string) : s ++ EmptyString = s.
Proof. induction s as [|c s IH]; [done|]. by rewrite sapp_cons, IH. Qed.

Lemma sapp_assoc (s t u : string) : (s ++ t) ++ u = s ++ t ++ u.
Proof. induction s as [|c s IH]; [done|]. by rewrite !sapp_cons, IH. Qed.

Lemma has_char_app (c : ascii) (s t : string) :
has_char c (s ++ t) = has_char c s || has_char c t.
Proof.
induction s as [|d s IH]; [done|].
rewrite sapp_cons. cbn [has_char]. by rewrite IH, orb_assoc.
Qed.



Lemma ends_with_inv (suffix s : string) :
ends_with suffix s = true -> exists s0, s = s0 ++ suffix.
Proof.
induction s as [|c s IH]; cbn [ends_with].
- rewrite orb_false_r. intros ->%String.eqb_eq. by exists EmptyString.
- intros [->%String.eqb_eq|H]%orb_prop; [by exists EmptyString|].
  destruct (IH H) as [s0 ->]. by exists (String c s0).
Qed.

(** *** Patterns *)

Lemma fnmatch_nil (s : string) : fnmatch EmptyString s = true <-> s = EmptyString.
Proof. by destruct s. Qed.

Lemma fnmatch_star (pat s : string) :
fnmatch (String "*" pat) s = true
<-> exists s1 s2, s = s1 ++ s2 /\ fnmatch pat s2 = true.
Proof.
cbn [fnmatch]. rewrite Ascii.eqb_refl.
induction s as [|c s IH].
- rewrite orb_false_r. split.
  + intros H. by exists EmptyString, EmptyString.
  + intros (s1 & s2 & Heq & H). destruct s1; [|done].
    rewrite sapp_nil_l in Heq. by rewrite <- Heq in H.
- rewrite orb_true_iff, IH. split.
  + intros [H|(s1 & s2 & -> & H)].
    * by exists EmptyString, (String c s).
    * by exists (String c s1), s2.
  + intros (s1 & s2 & Heq & H). destruct s1 as [|d s1].
    * left. rewrite sapp_nil_l in Heq. by rewrite Heq.
    * right. rewrite sapp_cons in Heq. injection Heq as -> ->. eauto.
Qed.

Lemma fnmatch_plain_cons (c : ascii) (pat s : string) :
Ascii.eqb c "*" = false -> Ascii.eqb c "?" = false ->
fnmatch (String c pat) s = true
<-> exists s', s = String c s' /\ fnmatch pat s' = true.
Proof.
intros Hstar Hq. cbn [fnmatch]. rewrite Hstar. destruct s as [|d s].
- split; [done | by intros (? & ? & _)].
- rewrite Hq. cbn [orb]. rewrite andb_true_iff, Ascii.eqb_eq. split.
  + intros [-> H]. eauto.
  + intros (s' & [= -> ->] & H). done.
Qed.

Lemma fnmatch_literal_prefix (lit pat s : string) :
literal lit = true ->
fnmatch (lit ++ pat) s = true
<-> exists s', s = lit ++ s' /\ fnmatch pat s' = true.
Proof.
revert s. induction lit as [|c lit IH]; intros s Hlit.
- split; [eauto | by intros (s' & -> & H)].
- unfold literal in Hlit, IH. cbn [has_char] in Hlit.
  rewrite !negb_orb, !andb_true_iff, !negb_true_iff in Hlit.
  destruct Hlit as [[Hc1 Hl1] [Hc2 Hl2]].
  rewrite sapp_cons, fnmatch_plain_cons by done. split.
  + intros (s' & -> & H). apply IH in H as (s'' & -> & H).
    * by exists s''.
    * by rewrite Hl1, Hl2.
  + intros (s' & -> & H). exists (lit ++ s'). split; [done|].
    apply IH; [by rewrite Hl1, Hl2 | eauto].
Qed.

Lemma fnmatch_literal (lit s : string) :
literal lit = true -> fnmatch lit s = true <-> s = lit.
Proof.
intros Hlit. rewrite <- (sapp_nil_r lit) at 1.
rewrite fnmatch_literal_prefix by done. split.
- intros (s' & -> & ->%fnmatch_nil). apply sapp_nil_r.
- intros ->. exists EmptyString. by rewrite sapp_nil_r.
Qed.


(** *** Paths *)

Lemma rsplit_slash_None (s : string) :
rsplit_slash s = None <-> has_char "/" s = false.
Proof.
induction s as [|c s IH]; cbn [rsplit_slash has_char]; [done|].
destruct (rsplit_slash s) as [[d b]|].
- split; [done|]. intros [_ H]%orb_false_elim. by apply IH in H.
- destruct (Ascii.eqb c "/"); [done|]. cbn [orb]. split; [|done].
  intros _. by apply IH.
Qed.

Lemma rsplit_slash_Some (s d b : string) :
rsplit_slash s = Some (d, b) -> s = d ++ "/" ++ b /\ has_char "/" b = false.
Proof.
revert d. induction s as [|c s IH]; intros d; cbn [rsplit_slash]; [done|].
destruct (rsplit_slash s) as [[d' b']|] eqn:Hs.
- intros [= <- <-]. destruct (IH d' eq_refl) as [-> Hb]. done.
- destruct (Ascii.eqb c "/") eqn:Hc; [|done].
  intros [= <- <-]. apply Ascii.eqb_eq in Hc as ->.
  split; [done|]. by apply rsplit_slash_None.
Qed.


Lemma rsplit_slash_join (d b : string) :
has_char "/" b = false -> rsplit_slash (d ++ "/" ++ b) = Some (d, b).
Proof.
intros Hb. induction d as [|c d IH].
- rewrite sapp_nil_l, sapp_cons, sapp_nil_l. cbn [rsplit_slash].
  apply rsplit_slash_None in Hb. by rewrite Hb.
- rewrite sapp_cons. cbn [rsplit_slash]. by rewrite IH.
Qed.


(** *** Candidates of the artifact scan *)

Lemma plain_inv (A : string) :
plain A = true ->
has_char "_" A = false /\ literal A = true /\ has_char "/" A = false.
Proof.
unfold plain, literal. rewrite !andb_true_iff, !negb_true_iff.
intros [[[[H1 H2] H3] _] H5]. by rewrite H1, H2, H3, H5.
Qed.

Lemma artifact_pattern_split (A : string) :
has_char "/" A = false ->
os_path_split (artifact_pattern A) = ("logs", "metrics_" ++ A ++ "_*.csv").
Proof.
intros HA. unfold os_path_split, artifact_pattern, logs_dir.
change ("logs" ++ "/metrics_" ++ A ++ "_*.csv")
  with ("logs" ++ "/" ++ "metrics_" ++ A ++ "_*.csv").
rewrite rsplit_slash_join; [done|].
rewrite !has_char_app, HA. done.
Qed.

Lemma artifact_path_join (A suffix : string) :
artifact_path A suffix = "logs" ++ "/" ++ ("metrics_" ++ A ++ "_") ++ suffix ++ ".csv".
Proof.
unfold artifact_path, logs_dir. rewrite !sapp_assoc. done.
Qed.

Lemma fnmatch_artifact (A name : string) :
literal A = true ->
fnmatch ("metrics_" ++ A ++ "_*.csv") name = true
<-> exists suffix, name = ("metrics_" ++ A ++ "_") ++ suffix ++ ".csv".
Proof.
intros HA.
assert (literal ("metrics_" ++ A ++ "_") = true) as Hlit.
{ unfold literal in *. rewrite !has_char_app.
  apply andb_true_iff in HA as [H1 H2]. apply negb_true_iff in H1, H2.
  by rewrite H1, H2. }
assert ("metrics_" ++ A ++ "_*.csv" = ("metrics_" ++ A ++ "_") ++ String "*" ".csv")
  as -> by (by rewrite !sapp_assoc).
rewrite fnmatch_literal_prefix by done. split.
- intros (s' & -> & (s1 & s2 & -> & H)%fnmatch_star).
  apply fnmatch_literal in H as ->; [|done]. by exists s1.
- intros (suffix & ->). eexists. split; [done|].
  apply fnmatch_star. exists suffix, ".csv". split; [done|].
  by apply fnmatch_literal.
Qed.

Lemma elem_of_glob_paths (f : FileSystem) (pat p : string) :
p ∈ glob_paths f pat
<-> p ∈ fst <$> files f
    /\ (os_path_split p).1 = (os_path_split pat).1
    /\ (ishidden (os_path_split pat).2 || negb (ishidden (os_path_split p).2)) = true
    /\ fnmatch (os_path_split pat).2 (os_path_split p).2 = true.
Proof.
unfold glob_paths. destruct (os_path_split pat) as [dirname pattern].
rewrite list_elem_of_In, filter_In, <- list_elem_of_In.
destruct (os_path_split p) as [d name]. cbn [fst snd].
rewrite !andb_true_iff, String.eqb_eq. tauto.
Qed.

Lemma glob_artifact_plain (f : FileSystem) (A p : string) :
plain A = true ->
p ∈ glob_paths f (artifact_pattern A)
<-> p ∈ fst <$> files f
    /\ exists suffix, p = artifact_path A suffix /\ has_char "/" suffix = false.
Proof.
intros (Hsep & Hlit & Hslash)%plain_inv.
rewrite elem_of_glob_paths, artifact_pattern_split by done. cbn [fst snd].
split.
- intros (Hin & Hd & _ & Hm). split; [done|].
  apply fnmatch_artifact in Hm as [suffix Hname]; [|done].
  unfold os_path_split in Hd, Hname.
  destruct (rsplit_slash p) as [[d name]|] eqn:Hp; [|done].
  cbn [fst snd] in Hd, Hname. subst d name.
  apply rsplit_slash_Some in Hp as [-> Hns]. exists suffix.
  rewrite artifact_path_join. split; [done|].
  rewrite (has_char_app _ ("metrics_" ++ A ++ "_")) in Hns.
  apply orb_false_elim in Hns as [_ Hns].
  rewrite has_char_app in Hns. by apply orb_false_elim in Hns as [Hns _].
- intros (Hin & suffix & -> & Hns). split; [done|].
  rewrite artifact_path_join. unfold os_path_split.
  rewrite rsplit_slash_join.
  + cbn [fst snd]. split; [done|]. split.
    * rewrite !sapp_cons. cbn [ishidden]. done.
    * apply fnmatch_artifact; eauto.
  + rewrite !has_char_app, Hslash, Hns. done.
Qed.


End Strings.

(** ** Artifact location and the per-run copy *)

Lemma locate_elem_of (f : FileSystem) (A p : string) :
  locate f A = Some p -> p ∈ glob_paths f (artifact_pattern A).
Proof.
  unfold locate. intros Hhd. apply elem_of_ranked.
  destruct (ranked f A) as [|q l]; [done|]. injection Hhd as ->. by left.
Qed.

Lemma locate_None (f : FileSystem) (A : string) :
  locate f A = None <-> glob_paths f (artifact_pattern A) = [].
Proof.
  rewrite <- ranked_nil. unfold locate. by destruct (ranked f A).
Qed.


Section ArtifactProperties.
Variable driver : string -> FileSystem -> Z * FileSystem.
Variable read_csv : string -> result DataFrame.

(** C5: when the external invocation of a cell exits with a non-zero
    status, [_run_single_test] returns [None] having only created the
    directory and run the command: no scan, no copy, no read; the cell
    adds no record and the loop goes on with the next algorithm. *)
Theorem failed_invocation_skips_cell (pid : string) (cfg : NetworkProfile)
    (A : string) (rest : list string) (acc : list TestResult) (w : World)
    (Hstatus : (driver (test_command A (result_path pid A) cfg) (fs w)).1 <> 0%Z) :
  exists w',
    _run_single_test driver A pid cfg w = (w', Ok None)
    /\ fs w' = (driver (test_command A (result_path pid A) cfg) (fs w)).2
    /\ trace w' = trace w ++ [EvMkdir (result_path pid A);
                              EvRun (test_command A (result_path pid A) cfg)]
    /\ forallb (fun ev => negb (is_artifact_event ev))
               (drop (length (trace w)) (trace w')) = true
    /\ run_cell driver read_csv pid cfg A acc w = (w', Ok acc)
    /\ mfor (A :: rest) (run_cell driver read_csv pid cfg) acc w
       = mfor rest (run_cell driver read_csv pid cfg) acc w'.
Proof.
  pose proof (run_single_test_failure driver A pid cfg w Hstatus) as Hrun.
  eexists. split; [exact Hrun|]. cbn [fs trace].
  split; [done|]. split; [done|]. split.
  { by rewrite drop_app_length. }
  assert (run_cell driver read_csv pid cfg A acc w
          = (mkWorld (driver (test_command A (result_path pid A) cfg) (fs w)).2
               (trace w ++ [EvMkdir (result_path pid A);
                            EvRun (test_command A (result_path pid A) cfg)]),
             Ok acc)) as Hcell.
  { unfold run_cell, mbind. by rewrite Hrun. }
  split; [done|]. cbn [mfor]. unfold mbind. by rewrite Hcell.
Qed.



End ArtifactProperties.

(** ** Evaluations on the sample worlds *)

(** C1 at a failing input: every invocation exits with status 0, but the
    newest bbr artifact is an empty file.  [pd.read_csv] raises
    [EmptyDataError] in the first cell; nothing catches it, so
    [run_all_tests] raises instead of returning the records of the other
    cells, which it never runs: the trace ends at the read of the first
    cell.  Without the bbr column of the matrix the same world yields the
    four remaining records. *)
Theorem malformed_artifact_aborts_matrix :
  snd (run_all_tests driver_ok sample_read_csv world_empty_artifact)
  = Raise EmptyDataError
  /\ trace (fst (run_all_tests driver_ok sample_read_csv world_empty_artifact))
     = [EvMkdir "results/profile_low_latency/bbr";
        EvRun (test_command "bbr" "results/profile_low_latency/bbr" low_latency);
        EvGlob "logs/metrics_bbr_*.csv";
        EvCopy "logs/metrics_bbr_2.csv" "results/profile_low_latency/bbr/bbr_cc_log.csv";
        EvReadCsv "results/profile_low_latency/bbr/bbr_cc_log.csv"]
  /\ (exists w' rs,
        run_matrix driver_ok sample_read_csv TestConfig.PROFILES ["vivace"; "vegas"]
                   world_empty_artifact = (w', Ok rs)
        /\ record_tag <$> rs
           = [("low_latency", "vivace"); ("low_latency", "vegas");
              ("high_latency", "vivace"); ("high_latency", "vegas")]).
Proof.
  split; [by vm_compute|]. split; [by vm_compute|].
  eexists _, _. split; [vm_compute; reflexivity|]. by vm_compute.
Qed.



Lemma prepare_data_frame_effect_witness :
  rows (data sample_record) !! 0%nat = Some (sample_row (3 # 2) 10)
  /\ NoDup (columns (data sample_record))
  /\ exists d row',
       _prepare_data [sample_record] = Ok d
       /\ rows d !! 0%nat = Some row'
       /\ row' !! "throughput" = Some (Num (3 # 2))
       /\ row' !! "scheme" = Some (Str "bbr").
Proof.
  assert (H1 : rows (data sample_record) !! 0%nat = Some (sample_row (3 # 2) 10))
    by reflexivity.
  assert (H2 : NoDup (columns (data sample_record)))
    by (apply (bool_decide_unpack _); vm_compute; exact I).
  split; [exact H1|]. split; [exact H2|].
  destruct (prepare_data_frame_effect [] [] sample_record 0 _ H1 H2)
    as (d & f & row' & Hd & _ & _ & Hrow & Hkeep & Hscheme & _).
  exists d, row'. split; [exact Hd|]. split; [exact Hrow|].
  split; [|exact Hscheme].
  rewrite Hkeep; [reflexivity|]. unfold identity_labels.
  rewrite !not_elem_of_cons. repeat split; try discriminate. apply not_elem_of_nil.
Defined.

Lemma failed_invocation_skips_cell_witness :
  (driver_vivace_fails
     (test_command "vivace" (result_path "low_latency" "vivace") low_latency)
     (fs world_full)).1 <> 0%Z
  /\ exists w',
       _run_single_test driver_vivace_fails "vivace" "low_latency" low_latency
                        world_full = (w', Ok None)
       /\ mfor ["vivace"; "vegas"]
               (run_cell driver_vivace_fails sample_read_csv "low_latency" low_latency)
               [] world_full
          = mfor ["vegas"]
                 (run_cell driver_vivace_fails sample_read_csv "low_latency" low_latency)
                 [] w'.
Proof.
  assert (H : (driver_vivace_fails
                 (test_command "vivace" (result_path "low_latency" "vivace") low_latency)
                 (fs world_full)).1 <> 0%Z)
    by (vm_compute; discriminate).
  split; [exact H|].
  destruct (failed_invocation_skips_cell driver_vivace_fails sample_read_csv
              "low_latency" low_latency "vivace" ["vegas"] [] world_full H)
    as (w' & Hrun & _ & _ & _ & _ & Hloop).
  exists w'. split; [exact Hrun | exact Hloop].
Defined.




(** * Further properties *)

(** ** Choice of the artifact *)

Lemma sort_desc_head {A} (keyed : list (Z * A)) :
  match fold_right insert_desc [] keyed with
  | [] => keyed = []
  | x :: _ =>
      exists l1 l2, keyed = l1 ++ x :: l2
                    /\ Forall (fun y => (y.1 < x.1)%Z) l1
                    /\ Forall (fun y => (y.1 <= x.1)%Z) l2
  end.
Proof.
  induction keyed as [|k ks IH]; [done|].
  cbn [fold_right]. destruct (fold_right insert_desc [] ks) as [|y s].
  - subst ks. exists [], []. by repeat split.
  - destruct IH as (l1 & l2 & -> & Hl1 & Hl2). cbn [insert_desc].
    destruct (Z.ltb k.1 y.1) eqn:Hlt.
    + apply Z.ltb_lt in Hlt. exists (k :: l1), l2. split; [done|].
      split; [by constructor | done].
    + apply Z.ltb_ge in Hlt. exists [], (l1 ++ y :: l2). split; [done|].
      split; [constructor|]. apply Forall_app. split.
      * eapply Forall_impl; [exact Hl1|]. intros z Hz. cbn in Hz. lia.
      * constructor; [lia|]. eapply Forall_impl; [exact Hl2|].
        intros z Hz. cbn in Hz. lia.
Qed.


(** X1: the artifact chosen for an algorithm is a newest candidate, and
    among the newest ones it is the first in directory order: every
    candidate listed before it is strictly older, every one after it is not
    newer. *)
Theorem locate_newest_first (f : FileSystem) (A p : string)
    (Hloc : locate f A = Some p) :
  exists before after,
    glob_paths f (artifact_pattern A) = before ++ p :: after
    /\ Forall (fun q => (mtime_at f q < mtime_at f p)%Z) before
    /\ Forall (fun q => (mtime_at f q <= mtime_at f p)%Z) after.
Proof.
  unfold locate, ranked in Hloc.
  pose proof (sort_desc_head
                ((fun q => (mtime_at f q, q)) <$> glob_paths f (artifact_pattern A)))
    as Hhead.
  destruct (fold_right insert_desc [] _) as [|[t q] s]; [done|].
  cbn in Hloc. injection Hloc as ->.
  destruct Hhead as (l1 & l2 & Heq & Hl1 & Hl2).
  apply fmap_app_inv in Heq as (before & rest & Hb & Hr & Hglob).
  symmetry in Hr. apply fmap_cons_inv in Hr as (q & after & [= -> ->] & Ha & ->).
  exists before, after. split; [done|]. subst l1 l2.
  rewrite Forall_forall in Hl1. rewrite Forall_forall in Hl2.
  split; apply Forall_forall; intros z Hz.
  - apply (Hl1 (mtime_at f z, z)).
    apply list_elem_of_fmap. exists z. by split.
  - apply (Hl2 (mtime_at f z, z)).
    apply list_elem_of_fmap. exists z. by split.
Qed.

Lemma locate_newest_first_witness :
  locate (fs world_tie) "bbr" = Some "logs/metrics_bbr_a.csv"
  /\ exists before after,
       glob_paths (fs world_tie) (artifact_pattern "bbr")
       = before ++ "logs/metrics_bbr_a.csv" :: after
       /\ Forall (fun q => (mtime_at (fs world_tie) q
                            < mtime_at (fs world_tie) "logs/metrics_bbr_a.csv")%Z) before.
Proof.
  assert (H : locate (fs world_tie) "bbr" = Some "logs/metrics_bbr_a.csv")
    by (vm_compute; reflexivity).
  split; [exact H|].
  destruct (locate_newest_first (fs world_tie) "bbr" _ H) as (b & a & Hg & Hb & _).
  exists b, a. split; [exact Hg | exact Hb].
Defined.

(** ** Outcome and footprint of one run *)

Section RunFurther.
Variable driver : string -> FileSystem -> Z * FileSystem.
Variable read_csv : string -> result DataFrame.



(** X4: an exception of [pd.read_csv] in the first cell leaves
    [run_all_tests] as it is: the run ends with that exception right after
    the read, and no further cell is started. *)
Theorem read_failure_propagates (pid : string) (cfg : NetworkProfile) (A : string)
    (profiles : list (string * NetworkProfile)) (algorithms : list string)
    (w : World) (newest : string) (x : file) (e : exn)
    (Hstatus : cell_status driver pid cfg A w = 0%Z)
    (Hfound : locate (cell_fs driver pid cfg A w) A = Some newest)
    (Hfile : fs_lookup (files (cell_fs driver pid cfg A w)) newest = Some x)
    (Hread : read_csv (content x) = Raise e) :
  exists w',
    run_matrix driver read_csv ((pid, cfg) :: profiles) (A :: algorithms) w
    = (w', Raise e)
    /\ trace w' = trace w ++ [EvMkdir (result_path pid A);
                              EvRun (test_command A (result_path pid A) cfg);
                              EvGlob (artifact_pattern A);
                              EvCopy newest (copy_path pid A);
                              EvReadCsv (copy_path pid A)].
Proof.
  unfold cell_status, cell_fs in *.
  pose proof (run_single_test_success driver A pid cfg w Hstatus) as Hrun.
  cbv zeta in Hrun. rewrite Hfound in Hrun. destruct Hrun as (x' & Hx' & Hrun).
  assert (x' = x) as -> by congruence.
  eexists. split.
  - unfold run_matrix. cbn [mfor]. unfold mbind at 1. unfold mbind at 1.
    unfold run_cell at 1. unfold mbind at 1. rewrite Hrun.
    unfold mbind at 1. unfold path_exists at 1. monad_unfold. cbn [files].
    rewrite fs_lookup_write_eq.
    rewrite bool_decide_eq_true_2 by (by eexists).
    unfold pd_read_csv. monad_unfold. cbn [files].
    rewrite fs_lookup_write_eq. cbn [content]. rewrite Hread. reflexivity.
  - cbn [trace]. by rewrite <- !app_assoc.
Qed.

Lemma run_matrix_collect (profiles : list (string * NetworkProfile))
    (algorithms : list string) (w : World) :
  run_matrix driver read_csv profiles algorithms w
  = collect driver read_csv (cells profiles algorithms) w.
Proof.
  unfold run_matrix. rewrite run_matrix_cells, mfor_collect.
  by destruct (collect _ _ _ w) as [w' [ls|e]].
Qed.


Lemma length_cells (profiles : list (string * NetworkProfile))
    (algorithms : list string) :
  length (cells profiles algorithms) = length profiles * length algorithms.
Proof.
  unfold cells. induction profiles as [|pc ps IH]; [done|].
  cbn [flat_map length]. by rewrite length_app, length_fmap, IH.
Qed.

Lemma NoDup_cell_tags (profiles : list (string * NetworkProfile))
    (algorithms : list string) :
  NoDup (fst <$> profiles) -> NoDup algorithms ->
  NoDup (cell_tag <$> cells profiles algorithms).
Proof.
  intros Hps Halgs. unfold cells.
  induction profiles as [|[pid cfg] ps IH]; [constructor|].
  rewrite fmap_cons in Hps. apply NoDup_cons in Hps as [Hpid Hps].
  cbn [flat_map fst snd]. rewrite fmap_app. apply NoDup_app. split; [|split].
  - rewrite <- list_fmap_compose. apply NoDup_fmap_2; [|done].
    intros a b [= ->]. done.
  - intros t Ht Ht'. apply Hpid.
    apply list_elem_of_fmap in Ht as (c & -> & (a & -> & _)%list_elem_of_fmap).
    apply list_elem_of_fmap in Ht' as (c & Hc & Hin).
    apply list_elem_of_In, in_flat_map in Hin as ([pid' cfg'] & Hin & Hc').
    apply list_elem_of_In, list_elem_of_fmap in Hc' as (a' & -> & _).
    cbn in Hc. injection Hc as -> _.
    apply list_elem_of_fmap. exists (pid', cfg'). split; [done|].
    by apply list_elem_of_In.
  - by apply IH.
Qed.

(** X6: a configuration with distinct profile keys and distinct algorithms
    yields at most one record per (profile, algorithm) pair, so no more
    records than cells. *)
Theorem run_matrix_distinct_tags (profiles : list (string * NetworkProfile))
    (algorithms : list string) (w w' : World) (rs : list TestResult)
    (Hkeys : NoDup (fst <$> profiles))
    (Halgorithms : NoDup algorithms)
    (Hrun : run_matrix driver read_csv profiles algorithms w = (w', Ok rs)) :
  NoDup (record_tag <$> rs)
  /\ length rs <= length profiles * length algorithms.
Proof.
  rewrite run_matrix_collect in Hrun.
  pose proof (collect_tags driver read_csv (cells profiles algorithms) w) as Hsub.
  rewrite Hrun in Hsub. split.
  - eapply sublist_NoDup; [|exact Hsub]. by apply NoDup_cell_tags.
  - apply sublist_length in Hsub. rewrite !length_fmap, length_cells in Hsub. done.
Qed.

Lemma collect_all_fail (cs : list (string * NetworkProfile * string)) (w : World) :
  (forall cmd f, (driver cmd f).1 <> 0%Z) ->
  exists w' evs,
    collect driver read_csv cs w = (w', Ok [])
    /\ trace w' = trace w ++ evs
    /\ length (List.filter is_run_event evs) = length cs
    /\ forallb (fun ev => negb (is_artifact_event ev)) evs = true.
Proof.
  intros Hfail. revert w. induction cs as [|[[pid cfg] A] cs IH]; intros w.
  - exists w, []. cbn [collect]. unfold mret. by rewrite app_nil_r.
  - cbn [collect]. unfold mbind at 1. unfold cell_records, run_cell.
    cbn [fst snd]. unfold mbind at 1.
    rewrite (run_single_test_failure driver A pid cfg w) by apply Hfail.
    unfold mret at 1.
    destruct (IH (mkWorld (driver (test_command A (result_path pid A) cfg) (fs w)).2
                    (trace w ++ [EvMkdir (result_path pid A);
                                 EvRun (test_command A (result_path pid A) cfg)])))
      as (w' & evs & Hcol & Htr & Hruns & Hnone).
    exists w', ([EvMkdir (result_path pid A);
                 EvRun (test_command A (result_path pid A) cfg)] ++ evs).
    unfold mbind. rewrite Hcol. unfold mret. split; [done|].
    cbn [trace] in Htr. rewrite <- app_assoc in Htr. split; [done|].
    cbn [app List.filter is_run_event forallb is_artifact_event negb andb length].
    by rewrite Hruns, Hnone.
Qed.

(** X7: when every invocation exits with a non-zero status, the matrix is
    still walked to its end: [run_all_tests] returns the empty list after
    one invocation per cell, and nothing is scanned, copied or read along
    the way. *)
Theorem all_invocations_fail (profiles : list (string * NetworkProfile))
    (algorithms : list string) (w : World)
    (Hfail : forall cmd f, (driver cmd f).1 <> 0%Z) :
  exists w',
    run_matrix driver read_csv profiles algorithms w = (w', Ok [])
    /\ length (List.filter is_run_event (drop (length (trace w)) (trace w')))
       = length profiles * length algorithms
    /\ forallb (fun ev => negb (is_artifact_event ev))
               (drop (length (trace w)) (trace w')) = true.
Proof.
  rewrite run_matrix_collect, <- length_cells.
  destruct (collect_all_fail (cells profiles algorithms) w Hfail)
    as (w' & evs & Hcol & Htr & Hruns & Hnone).
  exists w'. split; [done|]. rewrite Htr, drop_app_length. done.
Qed.
End RunFurther.

(** X8: for an algorithm id that is one plain token, an artifact
    logs/metrics_<id>_<suffix>.csv that exists is never missed: the scan
    chooses some file, so the cell is not skipped for want of an artifact. *)
Theorem existing_artifact_found (f : FileSystem) (A suffix : string)
    (Hplain : plain A = true)
    (Hsuffix : has_char "/" suffix = false)
    (Hfile : artifact_path A suffix ∈ fst <$> files f) :
  exists p, locate f A = Some p /\ p ∈ fst <$> files f.
Proof.
  destruct (locate f A) as [p|] eqn:Hloc.
  - exists p. split; [done|].
    by apply locate_elem_of, glob_paths_files in Hloc.
  - apply locate_None in Hloc.
    assert (artifact_path A suffix ∈ glob_paths f (artifact_pattern A)) as Hin.
    { apply glob_artifact_plain; [done|]. split; [done|]. eauto. }
    rewrite Hloc in Hin. by apply elem_of_nil in Hin.
Qed.

Lemma existing_artifact_found_witness :
  plain "vegas" = true
  /\ has_char "/" "1" = false
  /\ artifact_path "vegas" "1" ∈ fst <$> files (fs world_full)
  /\ exists p, locate (fs world_full) "vegas" = Some p.
Proof.
  assert (H1 : plain "vegas" = true) by reflexivity.
  assert (H2 : has_char "/" "1" = false) by reflexivity.
  assert (H3 : artifact_path "vegas" "1" ∈ fst <$> files (fs world_full)).
  { apply (bool_decide_unpack _). vm_compute. exact I. }
  split; [exact H1|]. split; [exact H2|]. split; [exact H3|].
  destruct (existing_artifact_found (fs world_full) "vegas" "1" H1 H2 H3)
    as (p & Hp & _).
  exists p. exact Hp.
Defined.


Lemma read_failure_propagates_witness :
  cell_status driver_ok "low_latency" low_latency "bbr" world_empty_artifact = 0%Z
  /\ locate (cell_fs driver_ok "low_latency" low_latency "bbr" world_empty_artifact)
            "bbr" = Some "logs/metrics_bbr_2.csv"
  /\ fs_lookup (files (cell_fs driver_ok "low_latency" low_latency "bbr"
                               world_empty_artifact))
               "logs/metrics_bbr_2.csv" = Some (mkFile 200 EmptyString)
  /\ sample_read_csv (content (mkFile 200 EmptyString)) = Raise EmptyDataError
  /\ exists w',
       run_matrix driver_ok sample_read_csv
                  [("low_latency", low_latency)] ["bbr"; "vivace"; "vegas"]
                  world_empty_artifact
       = (w', Raise EmptyDataError).
Proof.
  assert (H1 : cell_status driver_ok "low_latency" low_latency "bbr"
                 world_empty_artifact = 0%Z) by reflexivity.
  assert (H2 : locate (cell_fs driver_ok "low_latency" low_latency "bbr"
                         world_empty_artifact) "bbr"
               = Some "logs/metrics_bbr_2.csv") by (vm_compute; reflexivity).
  assert (H3 : fs_lookup (files (cell_fs driver_ok "low_latency" low_latency "bbr"
                                         world_empty_artifact))
                 "logs/metrics_bbr_2.csv" = Some (mkFile 200 EmptyString))
    by (vm_compute; reflexivity).
  assert (H4 : sample_read_csv (content (mkFile 200 EmptyString))
               = Raise EmptyDataError) by reflexivity.
  split; [exact H1|]. split; [exact H2|]. split; [exact H3|]. split; [exact H4|].
  destruct (read_failure_propagates driver_ok sample_read_csv "low_latency"
              low_latency "bbr" [] ["vivace"; "vegas"] world_empty_artifact
              _ _ _ H1 H2 H3 H4) as (w' & Hrun & _).
  exists w'. exact Hrun.
Defined.


Lemma run_matrix_distinct_tags_witness :
  NoDup (fst <$> TestConfig.PROFILES)
  /\ NoDup TestConfig.ALGORITHMS
  /\ exists w' rs,
       run_matrix driver_ok sample_read_csv
                  TestConfig.PROFILES TestConfig.ALGORITHMS world_full = (w', Ok rs)
       /\ NoDup (record_tag <$> rs).
Proof.
  assert (H1 : NoDup (fst <$> TestConfig.PROFILES))
    by (apply (bool_decide_unpack _); vm_compute; exact I).
  assert (H2 : NoDup TestConfig.ALGORITHMS)
    by (apply (bool_decide_unpack _); vm_compute; exact I).
  split; [exact H1|]. split; [exact H2|].
  pose (r := run_matrix driver_ok sample_read_csv
               TestConfig.PROFILES TestConfig.ALGORITHMS world_full).
  assert (Hrun : r = (fst r, Ok (match snd r with Ok l => l | Raise _ => [] end)))
    by (vm_compute; reflexivity).
  exists (fst r), (match snd r with Ok l => l | Raise _ => [] end).
  split; [exact Hrun|].
  exact (proj1 (run_matrix_distinct_tags driver_ok sample_read_csv
                  TestConfig.PROFILES TestConfig.ALGORITHMS world_full _ _
                  H1 H2 Hrun)).
Defined.

Lemma all_invocations_fail_witness :
  (forall cmd f, (driver_fails cmd f).1 <> 0%Z)
  /\ exists w',
       run_matrix driver_fails sample_read_csv
                  TestConfig.PROFILES TestConfig.ALGORITHMS world_full = (w', Ok []).
Proof.
  assert (H : forall cmd f, (driver_fails cmd f).1 <> 0%Z).
  { intros cmd f Heq. discriminate Heq. }
  split; [exact H|].
  destruct (all_invocations_fail driver_fails sample_read_csv
              TestConfig.PROFILES TestConfig.ALGORITHMS world_full H)
    as (w' & Hrun & _).
  exists w'. exact Hrun.
Defined.

(** ** The normalised dataset *)

Lemma prepared_columns (r : TestResult) (rest : list TestResult) (d : DataFrame) :
  _prepare_data (r :: rest) = Ok d ->
  forall c, c ∈ columns d
            <-> c ∈ identity_labels \/ exists r', r' ∈ r :: rest /\ c ∈ columns (data r').
Proof.
  intros Hd c.
  destruct (prepare_data_total (r :: rest)) as (d' & Hd' & _ & Hcols).
  assert (d' = d) as -> by congruence.
  rewrite Hcols by done. rewrite elem_of_union_labels. split.
  - intros (l & (r' & -> & Hin)%list_elem_of_fmap & Hc). cbn in Hc.
    apply elem_of_columns_stamp in Hc as [?|?]; [by left | right; eauto].
  - intros [Hc|(r' & Hin & Hc)].
    + exists (columns (stamp r)). split.
      * apply list_elem_of_fmap. exists r. split; [done | by left].
      * apply elem_of_columns_stamp. by left.
    + exists (columns (stamp r')). split.
      * apply list_elem_of_fmap. eauto.
      * apply elem_of_columns_stamp. by right.
Qed.

Lemma elem_of_rows_stamp (r : TestResult) (row : gmap string cell) :
  row ∈ rows (stamp r) ->
  exists j row0,
    rows (data r) !! j = Some row0
    /\ row = <["timestamp" := Int (Z.of_nat j)]>
               (<["profile" := Str (profile r)]>
                  (<["scheme" := Str (algorithm r)]> row0)).
Proof.
  intros (j & Hj)%list_elem_of_lookup.
  assert (j < len (data r)) as Hlt.
  { rewrite <- len_stamp. by eapply lookup_lt_Some. }
  apply lookup_lt_is_Some in Hlt as [row0 Hrow0].
  exists j, row0. split; [done|].
  rewrite (lookup_stamp r j row0 Hrow0) in Hj. by injection Hj.
Qed.

Lemma elem_of_prepared_rows (rs : list TestResult) (d : DataFrame)
    (row : gmap string cell) :
  _prepare_data rs = Ok d ->
  row ∈ rows d <-> exists r, r ∈ rs /\ row ∈ rows (stamp r).
Proof.
  intros Hd. destruct (prepare_data_total rs) as (d' & Hd' & Hrows & _).
  assert (d' = d) as -> by congruence.
  rewrite Hrows, elem_of_concat. split.
  - intros (l & (r & -> & Hin)%list_elem_of_fmap & Hrow). eauto.
  - intros (r & Hin & Hrow). exists (rows (stamp r)). split; [|done].
    apply list_elem_of_fmap. eauto.
Qed.

(** X9: the labels of the normalised dataset of a non-empty sequence are
    scheme, profile and timestamp together with the labels of every record's
    table, and nothing else. *)
Theorem prepare_data_columns (r : TestResult) (rest : list TestResult) :
  exists d,
    _prepare_data (r :: rest) = Ok d
    /\ forall c, c ∈ columns d
                 <-> c ∈ identity_labels
                     \/ exists r', r' ∈ r :: rest /\ c ∈ columns (data r').
Proof.
  destruct (prepare_data_total (r :: rest)) as (d & Hd & _).
  exists d. split; [done|]. by apply prepared_columns.
Qed.

(** X10: the normalised dataset is empty ([df.empty], the test [main] and
    [generate_plots] make) exactly when the records have no row at all; a
    sequence of records with empty tables is as good as no record. *)
Theorem prepare_data_empty_iff (rs : list TestResult) :
  exists d,
    _prepare_data rs = Ok d
    /\ (empty d = true <-> total_rows rs = 0).
Proof.
  destruct (prepare_data_total rs) as (d & Hd & Hrows & Hcols).
  exists d. split; [done|].
  destruct rs as [|r rest].
  - injection Hd as <-. done.
  - assert ("scheme" ∈ columns d) as Hin.
    { apply (prepared_columns r rest d Hd). left. by left. }
    unfold empty. destruct (columns d) as [|c cs]; [by apply elem_of_nil in Hin|].
    rewrite <- length_stamped_rows, <- Hrows.
    destruct (rows d); done.
Qed.

Lemma stamp_scheme_profile (r : TestResult) :
  (fun row => get_cell row "scheme") <$> rows (stamp r)
  = replicate (len (data r)) (Str (algorithm r))
  /\ (fun row => get_cell row "profile") <$> rows (stamp r)
     = replicate (len (data r)) (Str (profile r)).
Proof.
  split; apply list_eq; intros j; rewrite list_lookup_fmap;
    destruct (rows (data r) !! j) as [row0|] eqn:Hj.
  - rewrite (lookup_stamp r j row0 Hj). cbn.
    rewrite lookup_replicate_2 by (by eapply lookup_lt_Some).
    unfold get_cell.
    by rewrite lookup_insert_ne, lookup_insert_ne, lookup_insert_eq.
  - apply lookup_ge_None in Hj.
    rewrite (proj2 (lookup_ge_None (rows (stamp r)) j)) by (by rewrite len_stamp).
    symmetry. apply lookup_replicate_None. done.
  - rewrite (lookup_stamp r j row0 Hj). cbn.
    rewrite lookup_replicate_2 by (by eapply lookup_lt_Some).
    unfold get_cell. by rewrite lookup_insert_ne, lookup_insert_eq.
  - apply lookup_ge_None in Hj.
    rewrite (proj2 (lookup_ge_None (rows (stamp r)) j)) by (by rewrite len_stamp).
    symmetry. apply lookup_replicate_None. done.
Qed.

Lemma fmap_concat {A B} (f : A -> B) (ls : list (list A)) :
  f <$> concat ls = concat ((fun l : list A => f <$> l) <$> ls).
Proof.
  induction ls as [|l ls IH]; [done|].
  cbn [concat]. rewrite fmap_app, IH. done.
Qed.

(** X11: the scheme and profile columns of the normalised dataset spell out
    the records in input order: each record's algorithm, and its profile,
    repeated once per row of its table. *)
Theorem prepare_data_tags (r : TestResult) (rest : list TestResult) :
  exists d,
    _prepare_data (r :: rest) = Ok d
    /\ getitem d "scheme"
       = Ok (concat ((fun r' => replicate (len (data r')) (Str (algorithm r')))
                     <$> r :: rest))
    /\ getitem d "profile"
       = Ok (concat ((fun r' => replicate (len (data r')) (Str (profile r')))
                     <$> r :: rest)).
Proof.
  destruct (prepare_data_total (r :: rest)) as (d & Hd & Hrows & _).
  exists d. split; [done|].
  pose proof (prepared_columns r rest d Hd) as Hcols.
  split.
  - rewrite getitem_present by (apply Hcols; left; by left).
    rewrite Hrows, fmap_concat, <- list_fmap_compose. do 2 f_equal.
    apply list_fmap_ext. intros _ r' _. cbn. apply stamp_scheme_profile.
  - rewrite getitem_present by (apply Hcols; left; right; by left).
    rewrite Hrows, fmap_concat, <- list_fmap_compose. do 2 f_equal.
    apply list_fmap_ext. intros _ r' _. cbn. apply stamp_scheme_profile.
Qed.

(** X12: normalising a concatenation of two sequences of records gives the
    rows of the first followed by the rows of the second. *)
Theorem prepare_data_app (rs1 rs2 : list TestResult) :
  exists d1 d2 d,
    _prepare_data rs1 = Ok d1
    /\ _prepare_data rs2 = Ok d2
    /\ _prepare_data (rs1 ++ rs2) = Ok d
    /\ rows d = rows d1 ++ rows d2
    /\ len d = len d1 + len d2.
Proof.
  destruct (prepare_data_total rs1) as (d1 & Hd1 & Hrows1 & _).
  destruct (prepare_data_total rs2) as (d2 & Hd2 & Hrows2 & _).
  destruct (prepare_data_total (rs1 ++ rs2)) as (d & Hd & Hrows & _).
  exists d1, d2, d. repeat (split; [done|]).
  assert (rows d = rows d1 ++ rows d2) as Heq.
  { by rewrite Hrows, Hrows1, Hrows2, fmap_app, concat_app. }
  split; [done|]. unfold len. by rewrite Heq, length_app.
Qed.

Lemma has_rtt_inv (t : DataFrame) :
  has_rtt t = true ->
  "rtt" ∈ columns t
  /\ Forall (fun row => is_number (get_cell row "rtt") = true) (rows t).
Proof.
  unfold has_rtt. intros [Hc Hr]%andb_prop.
  apply bool_decide_eq_true in Hc. by apply forallb_Forall_true in Hr.
Qed.

Lemma prepared_normalized (r : TestResult) (rest : list TestResult) (d : DataFrame) :
  forallb (fun r' => has_rtt (data r')) (r :: rest) = true ->
  _prepare_data (r :: rest) = Ok d ->
  normalized d = true.
Proof.
  intros Hrtt Hd. apply forallb_Forall_true in Hrtt.
  pose proof (prepared_columns r rest d Hd) as Hcols.
  unfold normalized. rewrite !andb_true_iff. repeat split.
  - apply bool_decide_eq_true, Hcols. left. right. by left.
  - apply bool_decide_eq_true, Hcols. left. by left.
  - apply bool_decide_eq_true, Hcols. right. exists r. split; [by left|].
    apply Forall_cons in Hrtt as [Hr _]. by apply has_rtt_inv in Hr as [? _].
  - apply forallb_Forall_true, Forall_forall. intros row Hrow.
    apply (elem_of_prepared_rows _ d row Hd) in Hrow as (r' & Hin & Hrow).
    apply elem_of_rows_stamp in Hrow as (j & row0 & Hj & ->).
    rewrite Forall_forall in Hrtt. specialize (Hrtt r' Hin). cbn in Hrtt.
    apply has_rtt_inv in Hrtt as [_ Hnum]. rewrite Forall_forall in Hnum.
    assert (row0 ∈ rows (data r')) as Hrow0 by (by eapply list_elem_of_lookup_2).
    specialize (Hnum row0 Hrow0). unfold get_cell in *.
    rewrite lookup_insert_ne, lookup_insert_ne, lookup_insert_eq by done.
    rewrite (lookup_insert_ne _ "timestamp" "profile"), lookup_insert_eq by done.
    rewrite !lookup_insert_ne by done. by rewrite Hnum.
Qed.

(** ** Rows of the summary *)

Lemma summary_cell_keys (d : DataFrame) (p : string) (l : list string) :
  record_key <$> flat_map (summary_cell d p) l
  = pair_cells <$> List.filter (group_present d) ((fun a => (a, p)) <$> l).
Proof.
  induction l as [|a l IH]; [done|].
  rewrite fmap_cons. cbn [flat_map List.filter]. rewrite fmap_app, IH.
  unfold summary_cell at 1, group_present at 2. cbn [fst snd].
  by destruct (group_rows d a p).
Qed.

Lemma summary_table_keys (d : DataFrame) :
  record_key <$> flat_map (fun p => flat_map (summary_cell d p)
                                      (unique_by String.eqb [] (row_schemes d)))
                          (unique_by String.eqb [] (row_profiles d))
  = pair_cells <$> List.filter (group_present d) (group_pairs d).
Proof.
  unfold group_pairs.
  induction (unique_by String.eqb [] (row_profiles d)) as [|p ps IH]; [done|].
  cbn [flat_map]. rewrite fmap_app, List.filter_app, fmap_app, IH.
  by rewrite summary_cell_keys.
Qed.

Lemma NoDup_pairs (ps l : list string) :
  NoDup ps -> NoDup l ->
  NoDup (flat_map (fun p => (fun a => (a, p)) <$> l) ps).
Proof.
  intros Hps Hl. induction Hps as [|p ps Hp Hps IH]; [constructor|].
  cbn [flat_map]. apply NoDup_app. split; [|split; [|done]].
  - apply NoDup_fmap_2; [|done]. by intros a b [= ->].
  - intros [a q] (a' & [= -> ->] & _)%list_elem_of_fmap Hin.
    apply list_elem_of_In, in_flat_map in Hin as (p' & Hp' & Hin).
    apply list_elem_of_In, list_elem_of_fmap in Hin as (a'' & [= _ ->] & _).
    by apply list_elem_of_In in Hp'.
Qed.

Lemma elem_of_group_pairs (d : DataFrame) (a p : string) :
  (a, p) ∈ group_pairs d <-> a ∈ row_schemes d /\ p ∈ row_profiles d.
Proof.
  unfold group_pairs. rewrite list_elem_of_In, in_flat_map. split.
  - intros (p' & Hp' & Hin).
    apply list_elem_of_In, list_elem_of_fmap in Hin as (a' & [= -> ->] & Ha).
    apply list_elem_of_In in Hp'.
    apply (elem_of_unique_by _ String.eqb_eq) in Ha as [Ha _].
    apply (elem_of_unique_by _ String.eqb_eq) in Hp' as [Hp' _]. done.
  - intros [Ha Hp]. exists p. split.
    + apply list_elem_of_In, (elem_of_unique_by _ String.eqb_eq).
      split; [done | apply not_elem_of_nil].
    + apply list_elem_of_In, list_elem_of_fmap. exists a. split; [done|].
      apply (elem_of_unique_by _ String.eqb_eq). split; [done | apply not_elem_of_nil].
Qed.

Lemma group_present_pairs (d : DataFrame) (a p : string) :
  normalized d = true ->
  group_rows d a p <> [] -> (a, p) ∈ group_pairs d.
Proof.
  intros Hnorm Hne. apply elem_of_group_pairs.
  pose proof (group_rows_normalized d Hnorm a p) as Hrows.
  destruct (group_rows d a p) as [|row g]; [done|].
  apply Forall_cons in Hrows as [(Hsch & Hprof & _ & Hin) _]. split.
  - apply list_elem_of_fmap. exists row. by rewrite Hsch.
  - apply list_elem_of_fmap. exists row. by rewrite Hprof.
Qed.

Lemma elem_of_filter_list {A} (P : A -> bool) (l : list A) (x : A) :
  x ∈ List.filter P l <-> x ∈ l /\ P x = true.
Proof. by rewrite !list_elem_of_In, filter_In. Qed.

Lemma summary_keys_spec (d : DataFrame) :
  normalized d = true ->
  exists summary,
    _generate_rtt_summary d = Ok summary
    /\ NoDup (record_key <$> summary)
    /\ (forall k, k ∈ record_key <$> summary ->
                  exists a p, k = (Str a, Str p) /\ group_rows d a p <> [])
    /\ (forall a p, group_rows d a p <> [] ->
                    (Str a, Str p) ∈ record_key <$> summary).
Proof.
  intros Hnorm. eexists. split; [by apply generate_rtt_summary_table|].
  rewrite summary_table_keys. split; [|split].
  - apply NoDup_fmap_2; [by intros [a p] [b q] [= -> ->]|].
    apply NoDup_ListNoDup, List.NoDup_filter, NoDup_ListNoDup.
    apply NoDup_pairs; apply NoDup_unique_by, String.eqb_eq.
  - intros k ([a p] & -> & Hin)%list_elem_of_fmap.
    apply elem_of_filter_list in Hin as [_ Hpres].
    exists a, p. split; [done|]. unfold group_present in Hpres.
    cbn [fst snd] in Hpres. by destruct (group_rows d a p).
  - intros a p Hne. apply list_elem_of_fmap. exists (a, p). split; [done|].
    apply elem_of_filter_list. split; [by apply group_present_pairs|].
    unfold group_present. cbn [fst snd]. by destruct (group_rows d a p).
Qed.

(** X13: on a dataset that has the profile, scheme and rtt columns filled,
    [_generate_rtt_summary] does not raise; its rows carry pairwise distinct
    (Algorithm, Profile) keys, and a pair has a row exactly when some row of
    the dataset carries that pair: empty combinations of a profile and an
    algorithm that both occur are left out. *)
Theorem rtt_summary_keys (d : DataFrame) (Hnorm : normalized d = true) :
  exists summary,
    _generate_rtt_summary d = Ok summary
    /\ NoDup (record_key <$> summary)
    /\ (forall a p, (Str a, Str p) ∈ record_key <$> summary
                    <-> group_rows d a p <> [])
    /\ length summary <= length (group_pairs d).
Proof.
  destruct (summary_keys_spec d Hnorm) as (summary & Hs & Hnd & Hk1 & Hk2).
  exists summary. split; [done|]. split; [done|]. split.
  - intros a p. split; [|apply Hk2].
    intros (a' & p' & [= -> ->] & Hne)%Hk1. done.
  - assert (summary = flat_map (fun p => flat_map (summary_cell d p)
                                (unique_by String.eqb [] (row_schemes d)))
                        (unique_by String.eqb [] (row_profiles d))) as Heq.
    { pose proof (generate_rtt_summary_table d Hnorm) as Ht. congruence. }
    rewrite <- (length_fmap record_key), Heq, summary_table_keys, length_fmap.
    apply List.filter_length_le.
Qed.

Lemma rtt_summary_keys_witness :
  normalized sample_dataset = true
  /\ exists summary,
       _generate_rtt_summary sample_dataset = Ok summary
       /\ NoDup (record_key <$> summary).
Proof.
  assert (H : normalized sample_dataset = true) by (vm_compute; reflexivity).
  split; [exact H|].
  destruct (rtt_summary_keys sample_dataset H) as (summary & Hs & Hnd & _).
  exists summary. split; [exact Hs | exact Hnd].
Defined.

(** ** From the records to the summary *)

Lemma group_rows_prepared (rs : list TestResult) (d : DataFrame) (a p : string) :
  _prepare_data rs = Ok d ->
  group_rows d a p <> []
  <-> exists r, r ∈ rs /\ algorithm r = a /\ profile r = p /\ len (data r) <> 0.
Proof.
  intros Hd. split.
  - intros Hne. destruct (group_rows d a p) as [|row g] eqn:Hg; [done|].
    assert (row ∈ group_rows d a p) as Hin by (rewrite Hg; by left).
    unfold group_rows, select in Hin. cbn [rows] in Hin.
    apply elem_of_filter_list in Hin as [Hin Hsel].
    apply andb_prop in Hsel as [Ha Hp]. apply cell_eq_Str in Ha, Hp.
    apply (elem_of_prepared_rows rs d row Hd) in Hin as (r & Hr & Hrow).
    apply elem_of_rows_stamp in Hrow as (j & row0 & Hj & ->).
    exists r. split; [done|]. unfold get_cell in Ha, Hp.
    rewrite lookup_insert_ne, lookup_insert_ne, lookup_insert_eq in Ha by done.
    rewrite lookup_insert_ne, lookup_insert_eq in Hp by done.
    cbn in Ha, Hp. injection Ha as ->. injection Hp as ->.
    repeat split. apply lookup_lt_Some in Hj. unfold len. lia.
  - intros (r & Hr & <- & <- & Hlen).
    assert (is_Some (rows (data r) !! 0)) as [row0 Hrow0].
    { apply lookup_lt_is_Some. unfold len in Hlen. lia. }
    pose proof (lookup_stamp r 0 row0 Hrow0) as Hst.
    apply list_elem_of_lookup_2 in Hst.
    assert (<["timestamp" := Int (Z.of_nat 0)]>
              (<["profile" := Str (profile r)]>
                 (<["scheme" := Str (algorithm r)]> row0))
            ∈ group_rows d (algorithm r) (profile r)) as Hin.
    { unfold group_rows, select. cbn [rows]. apply elem_of_filter_list. split.
      - apply (elem_of_prepared_rows rs d _ Hd). eauto.
      - unfold get_cell.
        rewrite lookup_insert_ne, lookup_insert_ne, lookup_insert_eq by done.
        rewrite (lookup_insert_ne _ "timestamp" "profile"), lookup_insert_eq by done.
        cbn. by rewrite !String.eqb_refl. }
    intros Hnil. rewrite Hnil in Hin. by apply elem_of_nil in Hin.
Qed.

(** X14: when every record's table has an rtt column of numbers, the
    pipeline from the records to the summary does not raise, and the summary
    has a row for a pair (algorithm, profile) exactly when a record with at
    least one row carries that pair; so it has no more rows than there are
    records. *)
Theorem pipeline_summary_rows (r : TestResult) (rest : list TestResult)
    (Hrtt : forallb (fun r' => has_rtt (data r')) (r :: rest) = true) :
  exists d summary,
    _prepare_data (r :: rest) = Ok d
    /\ _generate_rtt_summary d = Ok summary
    /\ (forall a p,
          (Str a, Str p) ∈ record_key <$> summary
          <-> exists r', r' ∈ r :: rest /\ algorithm r' = a /\ profile r' = p
                         /\ len (data r') <> 0)
    /\ length summary <= length (r :: rest).
Proof.
  destruct (prepare_data_total (r :: rest)) as (d & Hd & _).
  pose proof (prepared_normalized r rest d Hrtt Hd) as Hnorm.
  destruct (summary_keys_spec d Hnorm) as (summary & Hs & Hnd & Hk1 & Hk2).
  exists d, summary. split; [done|]. split; [done|]. split.
  - intros a p. rewrite <- (group_rows_prepared (r :: rest) d a p Hd).
    split; [|apply Hk2]. intros (a' & p' & [= -> ->] & Hne)%Hk1. done.
  - rewrite <- (length_fmap record_key summary),
            <- (length_fmap record_cells (r :: rest)).
    apply submseteq_length, NoDup_submseteq; [done|].
    intros k (a & p & -> & Hne)%Hk1.
    apply (group_rows_prepared (r :: rest) d a p Hd) in Hne
      as (r' & Hin & <- & <- & _).
    apply list_elem_of_fmap. exists r'. by split.
Qed.

(** X15: when moreover the records carry pairwise distinct (profile,
    algorithm) tags and none has an empty table, the summary has exactly one
    row per record. *)
Theorem pipeline_summary_count (r : TestResult) (rest : list TestResult)
    (Hrtt : forallb (fun r' => has_rtt (data r')) (r :: rest) = true)
    (Htags : NoDup (record_tag <$> r :: rest))
    (Hrows : forallb (fun r' => negb (Nat.eqb (len (data r')) 0)) (r :: rest) = true) :
  exists d summary,
    _prepare_data (r :: rest) = Ok d
    /\ _generate_rtt_summary d = Ok summary
    /\ length summary = length (r :: rest)
    /\ record_key <$> summary ≡ₚ record_cells <$> r :: rest.
Proof.
  destruct (prepare_data_total (r :: rest)) as (d & Hd & _).
  pose proof (prepared_normalized r rest d Hrtt Hd) as Hnorm.
  destruct (summary_keys_spec d Hnorm) as (summary & Hs & Hnd & Hk1 & Hk2).
  exists d, summary. split; [done|]. split; [done|].
  assert (record_key <$> summary ≡ₚ record_cells <$> r :: rest) as Hperm.
  { apply NoDup_Permutation; [done| |].
    - assert (record_cells <$> r :: rest
              = (fun t : string * string => (Str t.2, Str t.1))
                <$> (record_tag <$> r :: rest)) as ->.
      { rewrite <- list_fmap_compose. done. }
      apply NoDup_fmap_2; [|done]. by intros [a p] [b q] [= -> ->].
    - intros k. split.
      + intros (a & p & -> & Hne)%Hk1.
        apply (group_rows_prepared (r :: rest) d a p Hd) in Hne
          as (r' & Hin & <- & <- & _).
        apply list_elem_of_fmap. exists r'. by split.
      + intros (r' & -> & Hin)%list_elem_of_fmap. apply Hk2.
        apply (group_rows_prepared (r :: rest) d _ _ Hd). exists r'.
        repeat split; [done|].
        apply forallb_Forall_true in Hrows. rewrite Forall_forall in Hrows.
        specialize (Hrows r' Hin). cbn in Hrows.
        apply negb_true_iff, Nat.eqb_neq in Hrows. done. }
  split; [|done].
  apply Permutation_length in Hperm. by rewrite !length_fmap in Hperm.
Qed.

Lemma pipeline_summary_rows_witness :
  forallb (fun r' => has_rtt (data r')) [sample_record] = true
  /\ exists d summary,
       _prepare_data [sample_record] = Ok d
       /\ _generate_rtt_summary d = Ok summary
       /\ length summary <= 1.
Proof.
  assert (H : forallb (fun r' => has_rtt (data r')) [sample_record] = true)
    by (vm_compute; reflexivity).
  split; [exact H|].
  destruct (pipeline_summary_rows sample_record [] H) as (d & s & Hd & Hs & _ & Hl).
  exists d, s. split; [exact Hd|]. split; [exact Hs | exact Hl].
Defined.

Lemma pipeline_summary_count_witness :
  forallb (fun r' => has_rtt (data r')) [sample_record] = true
  /\ NoDup (record_tag <$> [sample_record])
  /\ forallb (fun r' => negb (Nat.eqb (len (data r')) 0)) [sample_record] = true
  /\ exists d summary,
       _prepare_data [sample_record] = Ok d
       /\ _generate_rtt_summary d = Ok summary
       /\ length summary = 1.
Proof.
  assert (H1 : forallb (fun r' => has_rtt (data r')) [sample_record] = true)
    by (vm_compute; reflexivity).
  assert (H2 : NoDup (record_tag <$> [sample_record]))
    by (apply (bool_decide_unpack _); vm_compute; exact I).
  assert (H3 : forallb (fun r' => negb (Nat.eqb (len (data r')) 0)) [sample_record]
               = true) by (vm_compute; reflexivity).
  split; [exact H1|]. split; [exact H2|]. split; [exact H3|].
  destruct (pipeline_summary_count sample_record [] H1 H2 H3)
    as (d & s & Hd & Hs & Hl & _).
  exists d, s. split; [exact Hd|]. split; [exact Hs | exact Hl].
Defined.

(** ** Missing columns *)

Lemma unique_cons (c : cell) (col : list cell) :
  exists tail, unique (c :: col) = c :: tail.
Proof. unfold unique. cbn [unique_by existsb]. eauto. Qed.

(** X16: what [_generate_rtt_summary] does on a dataset that lacks an
    identity column: without the profile column it raises [KeyError]
    'profile'; with it and no rows it returns the empty summary, whatever
    other columns are missing; with rows but no scheme column it raises
    [KeyError] 'scheme'. *)
Theorem rtt_summary_missing_identity (d : DataFrame) :
  if bool_decide ("profile" ∈ columns d) then
    match rows d with
    | [] => _generate_rtt_summary d = Ok []
    | _ :: _ =>
        if bool_decide ("scheme" ∈ columns d) then True
        else (_generate_rtt_summary d = Raise (KeyError "scheme"))
    end
  else (_generate_rtt_summary d = Raise (KeyError "profile")).
Proof.
  unfold _generate_rtt_summary, getitem.
  destruct (bool_decide ("profile" ∈ columns d)) eqn:Hp; [|done].
  cbn [rbind]. destruct (rows d) as [|row rest]; [done|].
  destruct (bool_decide ("scheme" ∈ columns d)) eqn:Hs; [done|].
  rewrite fmap_cons.
  destruct (unique_cons (get_cell row "profile")
              ((fun r => get_cell r "profile") <$> rest)) as [tail ->].
  done.
Qed.

(** X17: on a dataset with rows that name their scheme and profile but
    without an rtt column, [_generate_rtt_summary] raises [KeyError] 'rtt':
    the group of the first row is not empty, and its rtt column is asked
    for. *)
Theorem rtt_summary_missing_rtt (d : DataFrame)
    (Hprofile : "profile" ∈ columns d)
    (Hscheme : "scheme" ∈ columns d)
    (Hrows : rows d <> [])
    (Htagged : tagged d = true)
    (Hrtt : "rtt" ∉ columns d) :
  _generate_rtt_summary d = Raise (KeyError "rtt").
Proof.
  unfold _generate_rtt_summary.
  rewrite (getitem_present d "profile" Hprofile). cbn [rbind].
  destruct (rows d) as [|row rest] eqn:Hd; [done|].
  rewrite fmap_cons.
  destruct (unique_cons (get_cell row "profile")
              ((fun r => get_cell r "profile") <$> rest)) as [ptail ->].
  cbn [rfor]. rewrite (getitem_present d "scheme" Hscheme). cbn [rbind].
  rewrite Hd, fmap_cons.
  destruct (unique_cons (get_cell row "scheme")
              ((fun r => get_cell r "scheme") <$> rest)) as [stail ->].
  cbn [rfor].
  unfold tagged in Htagged. rewrite Hd in Htagged. cbn [forallb] in Htagged.
  apply andb_prop in Htagged as [Hrow _]. apply andb_prop in Hrow as [Hs Hp].
  apply is_str_cell_string in Hs, Hp.
  assert (empty (select d (get_cell row "scheme") (get_cell row "profile")) = false)
    as ->.
  { unfold empty, select. cbn [columns rows]. rewrite Hd. cbn [List.filter].
    rewrite Hs, Hp. cbn [cell_eq]. rewrite !String.eqb_refl. cbn [andb].
    destruct (columns d); [by apply elem_of_nil in Hprofile | done]. }
  cbn [negb]. unfold getitem at 1. cbn [columns select].
  rewrite bool_decide_eq_false_2 by done. done.
Qed.

Lemma rtt_summary_missing_rtt_witness :
  "profile" ∈ columns tags_only_dataset
  /\ "scheme" ∈ columns tags_only_dataset
  /\ rows tags_only_dataset <> []
  /\ tagged tags_only_dataset = true
  /\ ("rtt" ∉ columns tags_only_dataset)
  /\ _generate_rtt_summary tags_only_dataset = Raise (KeyError "rtt").
Proof.
  assert (H1 : "profile" ∈ columns tags_only_dataset)
    by (apply (bool_decide_unpack _); vm_compute; exact I).
  assert (H2 : "scheme" ∈ columns tags_only_dataset)
    by (apply (bool_decide_unpack _); vm_compute; exact I).
  assert (H3 : rows tags_only_dataset <> []) by discriminate.
  assert (H4 : tagged tags_only_dataset = true) by (vm_compute; reflexivity).
  assert (H5 : "rtt" ∉ columns tags_only_dataset)
    by (apply (bool_decide_unpack _); vm_compute; exact I).
  repeat (split; [assumption|]).
  exact (rtt_summary_missing_rtt tags_only_dataset H1 H2 H3 H4 H5).
Defined.

(** ** Range of the statistics *)

From Stdlib Require Import Lqa.









(** ** Plots *)

Lemma pfor_calls {A} (f : A -> list plt_call) (l : list A) (body : A -> Plt unit)
    (calls : list plt_call) :
  (forall x cs, x ∈ l -> body x cs = (cs ++ f x, inr tt)) ->
  pfor l body calls = (calls ++ flat_map f l, inr tt).
Proof.
  revert calls. induction l as [|x l IH]; intros calls Hbody.
  - cbn. by rewrite app_nil_r.
  - cbn [pfor flat_map]. unfold pbind. rewrite Hbody by (by left).
    rewrite IH by (intros; apply Hbody; by right). by rewrite app_assoc.
Qed.

Lemma saved_files_app (c1 c2 : list plt_call) :
  saved_files (c1 ++ c2) = saved_files c1 ++ saved_files c2.
Proof. apply omap_app. Qed.







Section PlotProperties.
Variable repr_float : Q -> string.



(** X20: a scheme without a colour stops [_plot_throughput] before anything
    is saved: when the first row's scheme is not a key of the colour map the
    function raises [KeyError] with that scheme right after opening the first
    figure, and when [self.color_map] was never assigned it raises
    [AttributeError] at the same point. *)
Theorem plot_throughput_no_colour (d : DataFrame) (row : gmap string cell)
    (rest : list (gmap string cell)) (a : string) (calls : list plt_call)
    (Hprofile : "profile" ∈ columns d)
    (Hscheme : "scheme" ∈ columns d)
    (Htimestamp : "timestamp" ∈ columns d)
    (Hthroughput : "throughput" ∈ columns d)
    (Hrows : rows d = row :: rest)
    (Hfirst : get_cell row "scheme" = Str a) :
  _plot_throughput repr_float None d calls
  = (calls ++ [PltFigure], inl (AttributeError "color_map"))
  /\ forall dict,
       dict_get dict a = None ->
       _plot_throughput repr_float (Some dict) d calls
       = (calls ++ [PltFigure], inl (Exn (KeyError a))).
Proof.
  assert (Hcommon : forall cm cs e,
            color_of repr_float cm (Str a) (calls ++ [PltFigure]) = (cs, inl e) ->
            _plot_throughput repr_float cm d calls = (cs, inl e)).
  { intros cm cs e Hcolor. unfold _plot_throughput, plot_over_time.
    rewrite (getitem_present d "profile" Hprofile).
    unfold plift at 1, pbind at 1, pret at 1. rewrite Hrows, fmap_cons.
    destruct (unique_cons (get_cell row "profile")
                ((fun r => get_cell r "profile") <$> rest)) as [ptail ->].
    cbn [pfor]. unfold pbind at 1. unfold pbind at 1. unfold pcall at 1.
    rewrite (getitem_present d "scheme" Hscheme).
    unfold plift at 1, pbind at 1, pret at 1. rewrite Hrows, fmap_cons, Hfirst.
    destruct (unique_cons (Str a) ((fun r => get_cell r "scheme") <$> rest))
      as [stail ->].
    unfold pbind at 1. cbn [pfor]. unfold pbind at 1. cbv zeta.
    rewrite !getitem_present by done.
    unfold plift at 1, pbind at 1, pret at 1.
    unfold plift at 1, pbind at 1, pret at 1.
    unfold cell_upper at 1, pbind at 1, pret at 1.
    unfold pbind at 1. rewrite Hcolor. done. }
  split.
  - by apply Hcommon.
  - intros dict Hnone. apply Hcommon. unfold color_of, praise. by rewrite Hnone.
Qed.


Lemma series_mean_no_text (col : list cell) :
  Forall (fun c => is_str c = false) col ->
  series_mean col = Ok (mean_cell col).
Proof.
  intros Hcol. unfold mean_cell.
  assert (exists qs, numeric_values col = Ok qs) as [qs Hqs].
  { induction Hcol as [|c col Hc _ [qs IH]]; [by exists []|].
    destruct c; try discriminate Hc; cbn [numeric_values]; rewrite IH;
      cbn [rbind]; eauto. }
  unfold series_mean. rewrite Hqs. cbn [rbind]. by destruct qs.
Qed.

Lemma drawn_points_app (c1 c2 : list plt_call) :
  drawn_points (c1 ++ c2) = drawn_points c1 ++ drawn_points c2.
Proof. apply omap_app. Qed.

(** What [_plot_rtt_vs_throughput] issues on a dataset of the data model. *)
Lemma plot_rtt_vs_throughput_calls (dict : list (string * string)) (d : DataFrame)
    (calls : list plt_call) :
  normalized d = true ->
  "throughput" ∈ columns d ->
  no_text d "throughput" = true ->
  Forall (fun a => is_Some (dict_get dict a)) (row_schemes d) ->
  _plot_rtt_vs_throughput repr_float (Some dict) d calls
  = (calls ++ [PltFigure]
     ++ flat_map (fun p => flat_map (point_cell dict d p)
                             (unique_by String.eqb [] (row_schemes d)))
                 (unique_by String.eqb [] (row_profiles d))
     ++ [PltTitle "Avg Throughput vs Avg RTT";
         PltSavefig (path_join graphs_dir "rtt_vs_throughput.png");
         PltClose],
     inr tt).
Proof.
  intros Hnorm Hthr Htext Hcol.
  destruct (normalized_columns d Hnorm) as (Hp & Hs & Hrtt).
  unfold _plot_rtt_vs_throughput.
  unfold pbind at 1, pcall at 1.
  rewrite (getitem_present d "profile" Hp).
  unfold plift at 1, pbind at 1, pret at 1.
  rewrite (profile_column d Hnorm), unique_Str. unfold pbind at 1.
  rewrite (pfor_calls
             (fun prof => flat_map (point_cell dict d (cell_string prof))
                            (unique_by String.eqb [] (row_schemes d)))).
  { unfold pbind, pcall. rewrite flat_map_fmap. cbn [cell_string].
    by rewrite <- !app_assoc. }
  intros prof cs (p & -> & _)%list_elem_of_fmap. cbn [cell_string format_cell].
  rewrite (getitem_present d "scheme" Hs).
  unfold plift at 1, pbind at 1, pret at 1.
  rewrite (scheme_column d Hnorm), unique_Str.
  rewrite (pfor_calls (fun alg => point_cell dict d p (cell_string alg))).
  { by rewrite flat_map_fmap. }
  intros alg cs' (a & -> & Ha)%list_elem_of_fmap. cbn [cell_string].
  apply (elem_of_unique_by _ String.eqb_eq) in Ha as [Ha _].
  rewrite Forall_forall in Hcol. destruct (Hcol a Ha) as [color Hcolor].
  destruct (group_rtts_numeric d Hnorm a p) as [Hnum Hlen].
  unfold point_cell. cbv zeta.
  assert (empty (select d (Str a) (Str p))
          = match group_rows d a p with [] => true | _ => false end) as ->.
  { unfold empty. change (columns (select d (Str a) (Str p))) with (columns d).
    change (rows (select d (Str a) (Str p))) with (group_rows d a p).
    destruct (columns d); [by apply elem_of_nil in Hrtt | done]. }
  assert (Forall (fun c => is_str c = false)
            ((fun row => get_cell row "throughput") <$> group_rows d a p)) as Hno.
  { apply Forall_fmap, Forall_forall. intros row Hrow. cbn.
    unfold group_rows, select in Hrow. cbn [rows] in Hrow.
    apply elem_of_filter_list in Hrow as [Hrow _].
    unfold no_text in Htext. apply forallb_Forall_true in Htext.
    rewrite Forall_forall in Htext. specialize (Htext row Hrow). cbn in Htext.
    by apply negb_true_iff in Htext. }
  assert (getitem (select d (Str a) (Str p)) "rtt"
          = Ok ((fun row => get_cell row "rtt") <$> group_rows d a p)) as ->
    by (by apply getitem_present).
  assert (getitem (select d (Str a) (Str p)) "throughput"
          = Ok ((fun row => get_cell row "throughput") <$> group_rows d a p)) as ->
    by (by apply getitem_present).
  pose proof (series_mean_no_text _ Hno) as Hthrmean.
  assert (group_rows d a p <> [] ->
          series_mean ((fun row => get_cell row "rtt") <$> group_rows d a p)
          = Ok (Num (Qmean (group_rtts d a p)))) as Hrttmean.
  { intros Hne. unfold series_mean. rewrite Hnum. cbn [rbind].
    destruct (group_rtts d a p); [|done].
    destruct (group_rows d a p); done. }
  remember ((fun row => get_cell row "rtt") <$> group_rows d a p) as rttcol.
  remember ((fun row => get_cell row "throughput") <$> group_rows d a p) as thrcol.
  clear Heqrttcol Heqthrcol Hno Hnum.
  destruct (group_rows d a p) as [|row g]; cbn [negb].
  { unfold pret. by rewrite app_nil_r. }
  cbv beta iota delta [pbind plift pret praise pcall cell_upper color_of colour].
  rewrite Hrttmean by done. rewrite Hthrmean, Hcolor. done.
Qed.

(** X22: the chart of average throughput against average RTT and the RTT
    summary agree: on a dataset of the data model with a throughput column
    free of text and a colour for every scheme, [_plot_rtt_vs_throughput]
    does not raise, draws one point per row of the summary in the same
    order, the point's abscissa being that row's Avg RTT, and saves the one
    file graphs/rtt_vs_throughput.png. *)
Theorem plot_rtt_matches_summary (dict : list (string * string)) (d : DataFrame)
    (calls : list plt_call)
    (Hnorm : normalized d = true)
    (Hthroughput : "throughput" ∈ columns d)
    (Htext : no_text d "throughput" = true)
    (Hcolours : forallb (fun a => bool_decide (is_Some (dict_get dict a)))
                        (row_schemes d) = true) :
  exists new summary,
    _plot_rtt_vs_throughput repr_float (Some dict) d calls = (calls ++ new, inr tt)
    /\ _generate_rtt_summary d = Ok summary
    /\ fst <$> drawn_points new = (fun rec : rtt_record => rec.1.2) <$> summary
    /\ saved_files new = ["graphs/rtt_vs_throughput.png"].
Proof.
  assert (Forall (fun a => is_Some (dict_get dict a)) (row_schemes d)) as Hcol.
  { apply forallb_Forall_true in Hcolours.
    eapply Forall_impl; [exact Hcolours|]. intros a Ha.
    by apply bool_decide_eq_true in Ha. }
  eexists _, _.
  split; [by apply plot_rtt_vs_throughput_calls|].
  split; [by apply generate_rtt_summary_table|].
  assert (Hcellp : forall p a,
            fst <$> drawn_points (point_cell dict d p a)
            = (fun rec : rtt_record => rec.1.2) <$> summary_cell d p a
            /\ saved_files (point_cell dict d p a) = []).
  { intros p a. unfold point_cell, summary_cell.
    by destruct (group_rows d a p). }
  assert (Hrow : forall p l,
            fst <$> drawn_points (flat_map (point_cell dict d p) l)
            = (fun rec : rtt_record => rec.1.2) <$> flat_map (summary_cell d p) l
            /\ saved_files (flat_map (point_cell dict d p) l) = []).
  { intros p l. induction l as [|a l [IH1 IH2]]; [done|].
    cbn [flat_map]. destruct (Hcellp p a) as [H1 H2].
    rewrite drawn_points_app, saved_files_app, !fmap_app, IH1, IH2, H1, H2. done. }
  rewrite !drawn_points_app, !saved_files_app.
  assert (fst <$> drawn_points
                    (flat_map (fun p => flat_map (point_cell dict d p)
                                 (unique_by String.eqb [] (row_schemes d)))
                       (unique_by String.eqb [] (row_profiles d)))
          = (fun rec : rtt_record => rec.1.2)
            <$> flat_map (fun p => flat_map (summary_cell d p)
                            (unique_by String.eqb [] (row_schemes d)))
                  (unique_by String.eqb [] (row_profiles d))
          /\ saved_files
               (flat_map (fun p => flat_map (point_cell dict d p)
                            (unique_by String.eqb [] (row_schemes d)))
                  (unique_by String.eqb [] (row_profiles d))) = []) as [H1 H2].
  { induction (unique_by String.eqb [] (row_profiles d)) as [|p ps [IH1 IH2]];
      [done|].
    cbn [flat_map]. destruct (Hrow p (unique_by String.eqb [] (row_schemes d)))
      as [H1 H2].
    rewrite drawn_points_app, saved_files_app, !fmap_app, IH1, IH2, H1, H2. done. }
  rewrite !fmap_app, H1, H2. split.
  - unfold drawn_points at 1 2. cbn. by rewrite app_nil_r.
  - unfold saved_files. cbn. done.
Qed.
End PlotProperties.


Lemma plot_throughput_no_colour_witness :
  "profile" ∈ columns sample_dataset
  /\ "scheme" ∈ columns sample_dataset
  /\ "timestamp" ∈ columns sample_dataset
  /\ "throughput" ∈ columns sample_dataset
  /\ rows sample_dataset
     = default ∅ (head (rows sample_dataset)) :: tail (rows sample_dataset)
  /\ get_cell (default ∅ (head (rows sample_dataset))) "scheme" = Str "bbr"
  /\ _plot_throughput sample_repr (Some []) sample_dataset []
     = ([PltFigure], inl (Exn (KeyError "bbr"))).
Proof.
  assert (H1 : "profile" ∈ columns sample_dataset)
    by (apply (bool_decide_unpack _); vm_compute; exact I).
  assert (H2 : "scheme" ∈ columns sample_dataset)
    by (apply (bool_decide_unpack _); vm_compute; exact I).
  assert (H3 : "timestamp" ∈ columns sample_dataset)
    by (apply (bool_decide_unpack _); vm_compute; exact I).
  assert (H4 : "throughput" ∈ columns sample_dataset)
    by (apply (bool_decide_unpack _); vm_compute; exact I).
  assert (H5 : rows sample_dataset
               = default ∅ (head (rows sample_dataset)) :: tail (rows sample_dataset))
    by (vm_compute; reflexivity).
  assert (H6 : get_cell (default ∅ (head (rows sample_dataset))) "scheme" = Str "bbr")
    by (vm_compute; reflexivity).
  repeat (split; [assumption|]).
  destruct (plot_throughput_no_colour sample_repr sample_dataset _ _ "bbr" []
              H1 H2 H3 H4 H5 H6) as [_ Hkey].
  exact (Hkey [] eq_refl).
Defined.


Lemma plot_rtt_matches_summary_witness :
  normalized sample_dataset = true
  /\ "throughput" ∈ columns sample_dataset
  /\ no_text sample_dataset "throughput" = true
  /\ forallb (fun a => bool_decide (is_Some (dict_get generate_plots_color_map a)))
             (row_schemes sample_dataset) = true
  /\ exists new summary,
       _plot_rtt_vs_throughput sample_repr (Some generate_plots_color_map)
                               sample_dataset [] = ([] ++ new, inr tt)
       /\ _generate_rtt_summary sample_dataset = Ok summary
       /\ fst <$> drawn_points new = (fun rec : rtt_record => rec.1.2) <$> summary.
Proof.
  assert (H1 : normalized sample_dataset = true) by (vm_compute; reflexivity).
  assert (H2 : "throughput" ∈ columns sample_dataset)
    by (apply (bool_decide_unpack _); vm_compute; exact I).
  assert (H3 : no_text sample_dataset "throughput" = true)
    by (vm_compute; reflexivity).
  assert (H4 : forallb (fun a => bool_decide
                                   (is_Some (dict_get generate_plots_color_map a)))
                 (row_schemes sample_dataset) = true)
    by (vm_compute; reflexivity).
  repeat (split; [assumption|]).
  destruct (plot_rtt_matches_summary sample_repr generate_plots_color_map
              sample_dataset [] H1 H2 H3 H4) as (new & s & Hrun & Hs & Hpts & _).
  exists new, s. split; [exact Hrun|]. split; [exact Hs | exact Hpts].
Defined.
